(** * import_ust: the underground storage tank importer

    A shallow embedding of [scripts/import_ust.py] (functions [count_lines]
    and [import_data])
    and the properties of its row decoder, ordering stage, point mapping
    and driver.

    Conventions of the embedding
    - Python [str] is [string]; only the ASCII part of Python's character
      classes (whitespace, decimal digits) is modelled.
    - Python [int] is [Z]; Python [float] is the IEEE binary64 [float].
    - A raised exception is the [Raise] case of [res]; the importer only
      ever sees [ValueError] (parse failures) and [IndexError] (short rows).
    - The calls the store client receives are recorded, in order, in a list
      of [store_call].
    - What lives outside the repository (the builtin [float], the postal code
      database, the S2 cell library, the clock) is a field of [Externals]. *)

From Stdlib Require Import ZArith Lia Ascii String.
From Stdlib Require Import Floats.PrimFloat.
From stdpp Require Import base tactics option list sorting strings gmap.

Local Open Scope string_scope.
Local Open Scope list_scope.
Local Open Scope Z_scope.

(** ** Exceptions *)

Inductive exn : Set := ValueError | IndexError.

Inductive res (A : Type) : Type :=
| Ok (a : A)
| Raise (e : exn).
Arguments Ok {A} a.
Arguments Raise {A} e.

#[global] Instance res_ret : MRet res := fun A a => Ok a.

#[global] Instance res_bind : MBind res := fun A B k m =>
  match m with
  | Ok a => k a
  | Raise e => Raise e
  end.

(** [None] of a partial builtin is the [ValueError] it raises. *)
Definition value_or_raise {A} (o : option A) : res A :=
  match o with
  | Some a => Ok a
  | None => Raise ValueError
  end.

(** ** Python builtins used by the importer *)

Module Py.

(** [bool(s)] of a [str]: the empty string is falsy. *)
Definition str_truthy (s : string) : bool :=
  match s with
  | EmptyString => false
  | String _ _ => true
  end.

(** [str.isspace] on one ASCII character: TAB..CR, FS..US and the blank. *)
Definition is_space (c : ascii) : bool :=
  let n := nat_of_ascii c in
  ((9 <=? n)%nat && (n <=? 13)%nat) || ((28 <=? n)%nat && (n <=? 32)%nat).

Fixpoint lstrip (s : string) : string :=
  match s with
  | EmptyString => EmptyString
  | String c s' => if is_space c then lstrip s' else s
  end.

(** [rstrip] drops the trailing whitespace: a character stays when it is
    not a blank or when something stays after it. *)
Fixpoint rstrip (s : string) : string :=
  match s with
  | EmptyString => EmptyString
  | String c s' =>
      match rstrip s' with
      | EmptyString => if is_space c then EmptyString else String c EmptyString
      | r => String c r
      end
  end.

(** [s.strip()] *)
Definition strip (s : string) : string := rstrip (lstrip s).

(** [s.startswith(p)] *)
Fixpoint startswith (p s : string) : bool :=
  match p, s with
  | EmptyString, _ => true
  | String a p', String b s' => if Ascii.eqb a b then startswith p' s' else false
  | String _ _, EmptyString => false
  end.

(** [re.search(p, s)] for a pattern [p] without metacharacters: does [p]
    occur somewhere in [s]. *)
Fixpoint re_search (p s : string) : bool :=
  startswith p s ||
  match s with
  | EmptyString => false
  | String _ s' => re_search p s'
  end.

Definition digit_of (c : ascii) : option Z :=
  let n := nat_of_ascii c in
  if ((48 <=? n)%nat && (n <=? 57)%nat)%bool then Some (Z.of_nat n - 48) else None.

(** The digits of an integer literal after its first digit: digits, each
    optionally preceded by one underscore. *)
Fixpoint int_digits (acc : Z) (l : list ascii) : option Z :=
  match l with
  | [] => Some acc
  | c :: l' =>
      match digit_of c with
      | Some d => int_digits (10 * acc + d) l'
      | None =>
          if Ascii.eqb c "_" then
            match l' with
            | c' :: l'' =>
                match digit_of c' with
                | Some d => int_digits (10 * acc + d) l''
                | None => None
                end
            | [] => None
            end
          else None
      end
  end.

Definition int_unsigned (l : list ascii) : option Z :=
  match l with
  | c :: l' =>
      match digit_of c with
      | Some d => int_digits d l'
      | None => None
      end
  | [] => None
  end.

(** The whitespace that [int] itself skips around an ASCII text: TAB..CR and
    the blank. FS..US, which [str.strip] drops, are not part of it. *)
Definition is_c_space (c : ascii) : bool :=
  let n := nat_of_ascii c in
  ((9 <=? n)%nat && (n <=? 13)%nat) || (n =? 32)%nat.

Fixpoint skip_c_spaces (s : string) : string :=
  match s with
  | EmptyString => EmptyString
  | String c s' => if is_c_space c then skip_c_spaces s' else s
  end.

Fixpoint drop_trailing_c_spaces (s : string) : string :=
  match s with
  | EmptyString => EmptyString
  | String c s' =>
      match drop_trailing_c_spaces s' with
      | EmptyString => if is_c_space c then EmptyString else String c EmptyString
      | r => String c r
      end
  end.

(** [int(s)] in base ten: the whitespace around the number is skipped, one
    sign is allowed, and [None] is the [ValueError] of a non-numeric text. *)
Definition int (s : string) : option Z :=
  match list_ascii_of_string (drop_trailing_c_spaces (skip_c_spaces s)) with
  | c :: l' =>
      if Ascii.eqb c "-" then Z.opp <$> int_unsigned l'
      else if Ascii.eqb c "+" then int_unsigned l'
      else int_unsigned (c :: l')
  | [] => None
  end.

(** [bool(x)] of a [float]: false exactly for the two zeros; a NaN is
    truthy. *)
Definition float_truthy (x : float) : bool := negb (PrimFloat.eqb x PrimFloat.zero).

(** [x and y] on two values that are [None] or a float, as a condition. *)
Definition both_truthy (x y : option float) : bool :=
  match x, y with
  | Some a, Some b => float_truthy a && float_truthy b
  | _, _ => false
  end.

End Py.

(** ** [datetime] *)

(** A naive [datetime.datetime]: the seven fields Python stores and
    compares. *)
Record datetime : Set := mk_datetime {
  year : Z; month : Z; day : Z;
  hour : Z; minute : Z; second : Z; microsecond : Z
}.

#[global] Instance datetime_eq_dec : EqDecision datetime.
Proof. solve_decision. Defined.

Definition dt_fields (d : datetime) : list Z :=
  [year d; month d; day d; hour d; minute d; second d; microsecond d].

(** Tuple comparison [a < b], field by field from the left. *)
Fixpoint lex_ltb (a b : list Z) : bool :=
  match a, b with
  | x :: a', y :: b' => (x <? y) || ((x =? y) && lex_ltb a' b')
  | [], _ :: _ => true
  | _, [] => false
  end.

(** [a < b] on two naive datetimes. *)
Definition dt_ltb (a b : datetime) : bool := lex_ltb (dt_fields a) (dt_fields b).

(** [a <= b], that is [not (b < a)]. *)
Definition dt_leb (a b : datetime) : bool := negb (dt_ltb b a).

Module Strptime.

(** A decimal digit whose value lies in [lo..hi]: the character classes
    [[0-2]], [[1-9]], [\d] of the format's regular expression. *)
Definition digit_in (lo hi : Z) (c : ascii) : option Z :=
  match Py.digit_of c with
  | Some d => if (lo <=? d) && (d <=? hi) then Some d else None
  | None => None
  end.

Definition two_digits (lo1 hi1 lo2 hi2 : Z) (l : list ascii) : list (Z * list ascii) :=
  match l with
  | a :: b :: r =>
      match digit_in lo1 hi1 a, digit_in lo2 hi2 b with
      | Some x, Some y => [(10 * x + y, r)]
      | _, _ => []
      end
  | _ => []
  end.

Definition one_digit (lo hi : Z) (l : list ascii) : list (Z * list ascii) :=
  match l with
  | a :: r =>
      match digit_in lo hi a with
      | Some x => [(x, r)]
      | None => []
      end
  | [] => []
  end.

Definition blank_digit (l : list ascii) : list (Z * list ascii) :=
  match l with
  | a :: b :: r =>
      if Ascii.eqb a " " then
        match digit_in 1 9 b with
        | Some x => [(x, r)]
        | None => []
        end
      else []
  | _ => []
  end.

(** [%m] is [1[0-2]|0[1-9]|[1-9]]: the alternatives that match a prefix of
    [l], in the order the regular expression tries them. *)
Definition month_alts (l : list ascii) : list (Z * list ascii) :=
  two_digits 1 1 0 2 l ++ two_digits 0 0 1 9 l ++ one_digit 1 9 l.

(** [%d] is [3[01]|[12]\d|0[1-9]|[1-9]| [1-9]]. *)
Definition day_alts (l : list ascii) : list (Z * list ascii) :=
  two_digits 3 3 0 1 l ++ two_digits 1 2 0 9 l ++ two_digits 0 0 1 9 l
    ++ one_digit 1 9 l ++ blank_digit l.

(** [%Y] is [\d\d\d\d]. *)
Definition year_match (l : list ascii) : option (Z * list ascii) :=
  match l with
  | a :: b :: c :: d :: r =>
      match Py.digit_of a, Py.digit_of b, Py.digit_of c, Py.digit_of d with
      | Some x, Some y, Some z, Some w => Some (1000 * x + 100 * y + 10 * z + w, r)
      | _, _, _, _ => None
      end
  | _ => None
  end.

Definition literal (c : ascii) (l : list ascii) : option (list ascii) :=
  match l with
  | a :: r => if Ascii.eqb a c then Some r else None
  | [] => None
  end.

(** Backtracking over alternatives: the first one the rest of the pattern
    accepts. *)
Fixpoint first_match {A B} (alts : list A) (k : A -> option B) : option B :=
  match alts with
  | [] => None
  | a :: alts' =>
      match k a with
      | Some b => Some b
      | None => first_match alts' k
      end
  end.

(** The regular expression of the format [%m/%d/%Y], matched at the start
    of the text; the unmatched rest is returned with the three numbers. *)
Definition match_mdY (l : list ascii) : option (Z * Z * Z * list ascii) :=
  first_match (month_alts l) (fun '(m, r1) =>
    r2 ← literal "/" r1;
    first_match (day_alts r2) (fun '(d, r3) =>
      r4 ← literal "/" r3;
      '(y, r5) ← year_match r4;
      Some (m, d, y, r5))).

Definition is_leap (y : Z) : bool :=
  (y mod 4 =? 0) && (negb (y mod 100 =? 0) || (y mod 400 =? 0)).

Definition days_in_month (y m : Z) : Z :=
  if m =? 2 then (if is_leap y then 29 else 28)
  else if (m =? 4) || (m =? 6) || (m =? 9) || (m =? 11) then 30
  else 31.

(** [datetime.strptime(s, "%m/%d/%Y")]: the text must match the format in
    full and name a day of the calendar (years 1 to 9999); the time of day
    is midnight. [None] is the [ValueError] raised otherwise. *)
Definition strptime_mdY (s : string) : option datetime :=
  match match_mdY (list_ascii_of_string s) with
  | Some (m, d, y, []) =>
      if (1 <=? y) && (1 <=? d) && (d <=? days_in_month y m)
      then Some (mk_datetime y m d 0 0 0 0)
      else None
  | _ => None
  end.

End Strptime.

(** ** Constants and data of the importer *)

Definition START_OF_TIME : string := "1970-01-01T00:00:00Z".
(** [datetime.fromisoformat("1970-01-01")] *)
Definition START_OF_TIME_DATE : datetime := mk_datetime 1970 1 1 0 0 0 0.
Definition S2_LEVEL : Z := 10.
Definition HEADER_ID : string := "UST Site ID Number".

(** The positions of the 27 columns. *)
Module UstToken.
Definition ID : nat := 0.
Definition NAME : nat := 1.
Definition ADDRESS : nat := 2.
Definition CITY : nat := 3.
Definition ZIP : nat := 4.
Definition TANK_NO : nat := 5.
Definition STATUS : nat := 6.
Definition COMPARTMENT : nat := 7.
Definition ESTIMATED_TOTAL_CAPACITY : nat := 8.
Definition SUBSTANCE_STORED : nat := 9.
Definition LAST_USED_DATE : nat := 10.
Definition CLOSURE_TYPE : nat := 11.
Definition CONSTRUCTION_TYPE_TANK : nat := 12.
Definition DETAILS : nat := 13.
Definition CONSTRUCTION_TYPE_PIPING : nat := 14.
Definition PIPING_DETAILS : nat := 15.
Definition INSTALLATION_DATE : nat := 16.
Definition SPILL_PROTECTION : nat := 17.
Definition OVERFILL_PROTECTION : nat := 18.
Definition LATITUDE : nat := 19.
Definition LONGITUDE : nat := 20.
Definition COLLECTION_METHOD : nat := 21.
Definition REFERENCE_POINT_TYPE : nat := 22.
Definition UST_LATITUDE : nat := 23.
Definition UST_LONGITUDE : nat := 24.
Definition COLLECTION_METHOD_SITE : nat := 25.
Definition REFERENCE_POINT_TYPE_SITE : nat := 26.
End UstToken.

(** One row of the csv reader. *)
Abbreviation RawRow := (list string).

(** The dataclass [TankPoint]. *)
Record TankPoint : Set := mk_TankPoint {
  city : string;
  closure_type : string;
  construction_type : string;
  overfill_protection : string;
  spill_protection : string;
  status : string;
  substance_stored : string;
  estimated_total_capacity : Z;
  s2_cell_id_token : string;
  lat : float;
  lon : float;
  last_used_date : datetime
}.

(** What [uszipcode] answers for a postal code: either coordinate may be
    missing. *)
Module SimpleZipcode.
Record t : Set := mk { lat : option float; lng : option float }.
End SimpleZipcode.

(** The collaborators of the importer that are not code of the repository. *)
Record Externals : Type := mk_Externals {
  (** the builtin [float(s)]; [None] is its [ValueError] *)
  py_float : string -> option float;
  (** [SearchEngine.by_zipcode]; [None] is a result that is falsy *)
  by_zipcode : string -> option SimpleZipcode.t;
  (** [s2cell.lat_lon_to_token(lat, lon, level)]; [None] is a [ValueError] *)
  lat_lon_to_token : float -> float -> Z -> option string;
  (** what [datetime.now()] returns while row number [i] of the file is decoded *)
  now : nat -> datetime;
  (** what [datetime.utcnow()] returns before the truncation *)
  utcnow : datetime
}.

(** ** The points handed to the store *)

Module WritePrecision.
Inductive t : Set := MS | S | US | NS.
End WritePrecision.

Inductive field_value : Set :=
| IntField (z : Z)
| FloatField (x : float).

(** The state of an [influxdb_client.Point] under construction. *)
Record Point : Type := mk_Point {
  p_name : string;
  p_tags : gmap string string;
  p_fields : gmap string field_value;
  p_time : option datetime;
  p_write_precision : WritePrecision.t
}.

Module PointApi.
(** [Point(name)] *)
Definition new (name : string) : Point := mk_Point name ∅ ∅ None WritePrecision.NS.
(** [p.tag(key, value)] *)
Definition tag (key value : string) (p : Point) : Point :=
  mk_Point (p_name p) (<[key := value]> (p_tags p)) (p_fields p) (p_time p)
           (p_write_precision p).
(** [p.field(key, value)] *)
Definition field (key : string) (value : field_value) (p : Point) : Point :=
  mk_Point (p_name p) (p_tags p) (<[key := value]> (p_fields p)) (p_time p)
           (p_write_precision p).
(** [p.time(t, write_precision)] *)
Definition time (t : datetime) (wp : WritePrecision.t) (p : Point) : Point :=
  mk_Point (p_name p) (p_tags p) (p_fields p) (Some t) wp.
End PointApi.

(** The calls the store client receives. *)
Inductive store_call : Type :=
| DeleteCall (start : string) (stop : datetime) (bucket org measurement : string)
| WriteCall (bucket org : string) (p : Point)
| FlushCall.

Definition is_write (c : store_call) : bool :=
  match c with
  | WriteCall _ _ _ => true
  | _ => false
  end.

Definition is_delete (c : store_call) : bool :=
  match c with
  | DeleteCall _ _ _ _ _ => true
  | _ => false
  end.

(** ** The row decoder: the body of the parsing loop *)

(** [row[i]] *)
Definition getitem (row : RawRow) (i : nat) : res string :=
  match row !! i with
  | Some s => Ok s
  | None => Raise IndexError
  end.

(** How the loop body ends for one row when it does not raise. *)
Inductive decoded : Set :=
| Skipped
| Accepted (tank : TankPoint)
| Ignored.

Section Decoder.
Context (ext : Externals).

(** Lines 167 to 175: the last used date and its heuristics. *)
Definition resolve_last_used (now_ : datetime) (row : RawRow) : res datetime :=
  last ← getitem row UstToken.LAST_USED_DATE;
  if negb (Py.str_truthy last) || String.eqb last "" then
    st ← getitem row UstToken.STATUS;
    if Py.re_search "In Use" st then Ok now_
    else
      inst ← getitem row UstToken.INSTALLATION_DATE;
      if Py.str_truthy inst then value_or_raise (Strptime.strptime_mdY inst)
      else Ok START_OF_TIME_DATE
  else value_or_raise (Strptime.strptime_mdY last).

(** Lines 196 to 200: the postal code branch. *)
Definition zip_branch (row : RawRow) : res (option float * option float) :=
  zip ← getitem row UstToken.ZIP;
  if Py.str_truthy zip then
    match by_zipcode ext zip with
    | Some sr_data => Ok (SimpleZipcode.lat sr_data, SimpleZipcode.lng sr_data)
    | None => Ok (None, None)
    end
  else Ok (None, None).

(** Lines 191 to 202: [lat] and [lon] start as [None]; the direct branch
    is taken when both fields are non-empty ([and] does not look at the
    longitude field when the latitude field is empty). *)
Definition resolve_location (row : RawRow) : res (option float * option float) :=
  la ← getitem row UstToken.LATITUDE;
  both ← (if Py.str_truthy la
          then lo ← getitem row UstToken.LONGITUDE; Ok (Py.str_truthy lo)
          else Ok false);
  if both : bool then
    lo ← getitem row UstToken.LONGITUDE;
    x ← value_or_raise (py_float ext la);
    y ← value_or_raise (py_float ext lo);
    Ok (Some x, Some y)
  else zip_branch row.

(** Lines 160 to 223. *)
Definition decode_row (now_ : datetime) (row : RawRow) : res decoded :=
  id ← getitem row UstToken.ID;
  if String.eqb id HEADER_ID then Ok Skipped
  else
    last_used ← resolve_last_used now_ row;
    city_ ← getitem row UstToken.CITY;
    closure_ ← getitem row UstToken.CLOSURE_TYPE;
    construction_ ← getitem row UstToken.CONSTRUCTION_TYPE_PIPING;
    capacity_ ← getitem row UstToken.ESTIMATED_TOTAL_CAPACITY;
    capacity ← value_or_raise (Py.int (Py.strip capacity_));
    spill_ ← getitem row UstToken.SPILL_PROTECTION;
    overfill_ ← getitem row UstToken.OVERFILL_PROTECTION;
    substance_ ← getitem row UstToken.SUBSTANCE_STORED;
    status_ ← getitem row UstToken.STATUS;
    '(lat_, lon_) ← resolve_location row;
    match lat_, lon_ with
    | Some x, Some y =>
        if Py.float_truthy x && Py.float_truthy y then
          token ← value_or_raise (lat_lon_to_token ext x y S2_LEVEL);
          Ok (Accepted {|
                city := Py.strip city_;
                last_used_date := last_used;
                closure_type := Py.strip closure_;
                construction_type := Py.strip construction_;
                estimated_total_capacity := capacity;
                spill_protection := Py.strip spill_;
                overfill_protection := Py.strip overfill_;
                substance_stored := Py.strip substance_;
                lat := x;
                lon := y;
                s2_cell_id_token := token;
                status := Py.strip status_
              |})
        else Ok Ignored
    | _, _ => Ok Ignored
    end.

(** The variables of the parsing loop. *)
Record loop_state : Set := mk_loop_state {
  tanks : list TankPoint;
  ignored : nat
}.

Definition loop_init : loop_state := mk_loop_state [] 0.

Definition loop_step (st : loop_state) (d : decoded) : loop_state :=
  match d with
  | Skipped => st
  | Accepted tank => mk_loop_state (tanks st ++ [tank]) (ignored st)
  | Ignored => mk_loop_state (tanks st) (Datatypes.S (ignored st))
  end.

(** Lines 158 to 230: the loop over the rows, from row number [i] on. The
    exception that ends it, if any, comes with the state reached. *)
Fixpoint parse_rows (i : nat) (rows : list RawRow) (st : loop_state)
  : loop_state * option exn :=
  match rows with
  | [] => (st, None)
  | row :: rows' =>
      match decode_row (now ext i) row with
      | Ok d => parse_rows (Datatypes.S i) rows' (loop_step st d)
      | Raise e => (st, Some e)
      end
  end.

End Decoder.

(** ** The ordering stage *)

Section StableSort.
Context {A : Type} (key : A -> datetime).

(** [x] goes in front of the first element whose key is not above its
    own, hence in front of every element of equal key. *)
Fixpoint insert_desc (x : A) (l : list A) : list A :=
  match l with
  | [] => [x]
  | y :: l' => if dt_ltb (key x) (key y) then y :: insert_desc x l' else x :: l
  end.

(** [l.sort(key=key, reverse=True)]. Python documents the builtin sort as
    stable, also with [reverse=True]; it is modelled by insertion from the
    right end, and [stable_sort_unique] below shows that every stable
    descending sort returns this list. *)
Definition sort_desc (l : list A) : list A := foldr insert_desc [] l.

(** [desc a b]: [a] may stand before [b], its key is not below that of [b]. *)
Definition desc (a b : A) : Prop := dt_leb (key b) (key a) = true.

(** The elements of one key, in the order of the list. *)
Definition with_key (d : datetime) (l : list A) : list A :=
  filter (fun a => key a = d) l.

End StableSort.

(** ** The point of a tank, lines 240 to 251 *)

Definition tank_point (measurement : string) (tank : TankPoint) : Point :=
  let p := PointApi.new measurement in
  let p := PointApi.tag "city" (city tank) p in
  let p := PointApi.tag "closure_type" (closure_type tank) p in
  let p := PointApi.tag "construction_type" (construction_type tank) p in
  let p := PointApi.field "estimated_total_capacity"
             (IntField (estimated_total_capacity tank)) p in
  let p := PointApi.tag "spill_protection" (spill_protection tank) p in
  let p := PointApi.tag "overfill_protection" (overfill_protection tank) p in
  let p := PointApi.tag "substance_stored" (substance_stored tank) p in
  let p := PointApi.tag "s2_cell_id" (s2_cell_id_token tank) p in
  let p := PointApi.field "lat" (FloatField (lat tank)) p in
  let p := PointApi.field "lon" (FloatField (lon tank)) p in
  PointApi.time (last_used_date tank) WritePrecision.S p.

(** ** The driver *)

(** How a run ends: the two numbers of the final report, or the exception
    that leaves [import_data]. *)
Inductive outcome : Set :=
| Completed (count ignored_ : nat)
| Aborted (e : exn).

(** Lines 239 to 257: one write per tank, counting. *)
Fixpoint write_all (bucket org measurement : string) (l : list TankPoint) (count : nat)
  : list store_call * nat :=
  match l with
  | [] => ([], count)
  | tank :: l' =>
      let '(calls, c) := write_all bucket org measurement l' (Datatypes.S count) in
      (WriteCall bucket org (tank_point measurement tank) :: calls, c)
  end.

(** [import_data]: the calls made to the store, in order, and the outcome.
    [rows] is what the csv reader yields for the data file. *)
Definition import_data (ext : Externals) (org bucket : string)
    (rows : list RawRow) (truncate : bool) : list store_call * outcome :=
  let measurement := "fuel_tanks" in
  let deleted :=
    if truncate
    then [DeleteCall START_OF_TIME (utcnow ext) bucket org measurement]
    else [] in
  match parse_rows ext 0 rows loop_init with
  | (_, Some e) => (deleted, Aborted e)
  | (st, None) =>
      match tanks st with
      | [] => (deleted, Aborted ValueError)
      | _ :: _ =>
          let sorted := sort_desc last_used_date (tanks st) in
          let '(calls, count) := write_all bucket org measurement sorted 0 in
          (deleted ++ calls ++ [FlushCall], Completed count (ignored st))
      end
  end.

(** ** [count_lines], lines 78 to 81 *)

Module CountLines.

Definition newline : Byte.byte := Byte.x0a.

(** [buf.count(b)] for one byte [b]. *)
Fixpoint count (b : Byte.byte) (buf : list Byte.byte) : nat :=
  match buf with
  | [] => 0%nat
  | c :: buf' => ((if Byte.eqb c b then 1 else 0) + count b buf')%nat
  end.

(** [the_file.read(n)] on a file opened in binary mode, the state of the
    file being the bytes not read yet: at most [n] bytes, and what is left.
    At the end of the file the chunk is empty. *)
Definition read (n : nat) (rest : list Byte.byte) : list Byte.byte * list Byte.byte :=
  (take n rest, drop n rest).

(** [bool(buf)] of a [bytes] value. *)
Definition bytes_truthy (buf : list Byte.byte) : bool :=
  match buf with
  | [] => false
  | _ :: _ => true
  end.

(** [takewhile(lambda x: x, (the_file.read(n) for _ in repeat(None)))]: the
    chunks read one after the other, up to the first empty one. The
    generator has no bound of its own; [fuel] bounds the number of reads and
    [None] says it was too small. *)
Fixpoint buffer_gen (fuel n : nat) (rest : list Byte.byte) : option (list (list Byte.byte)) :=
  match fuel with
  | O => None
  | Datatypes.S fuel' =>
      let '(buf, rest') := read n rest in
      if bytes_truthy buf
      then bufs ← buffer_gen fuel' n rest'; Some (buf :: bufs)
      else Some []
  end.

(** [sum(buf.count(b'\n') for buf in buffer_gen if buf)] *)
Definition count_lines_with (fuel n : nat) (data : list Byte.byte) : option nat :=
  bufs ← buffer_gen fuel n data;
  Some (sum_list (count newline <$> List.filter bytes_truthy bufs)).

(** The size of a chunk, [1024 * 1024]. *)
Definition CHUNK : nat := Z.to_nat (1024 * 1024).

(** [count_lines(filename)] for a file that holds [data]; one read more
    than the file has bytes is always enough. *)
Definition count_lines (data : list Byte.byte) : option nat :=
  count_lines_with (Datatypes.S (length data)) CHUNK data.

End CountLines.

(** ** Sample data *)

Module Sample.

(** A postal code database with one entry, a float parser that knows the
    three literals of the sample rows, a cell library that answers one
    token for every cell, and a clock that stands still. *)
Definition ext : Externals := {|
  py_float := fun s =>
    if String.eqb s "41.75" then Some 41.75%float
    else if String.eqb s "-72.5" then Some (-72.5)%float
    else if String.eqb s "0.0" then Some 0%float
    else None;
  by_zipcode := fun z =>
    if String.eqb z "06101"
    then Some (SimpleZipcode.mk (Some 41.5%float) (Some (-72.25)%float))
    else if String.eqb z "06102"
    then Some (SimpleZipcode.mk (Some 41.5%float) None)
    else None;
  lat_lon_to_token := fun _ _ _ => Some "89e7";
  now := fun _ => mk_datetime 2022 11 5 10 30 0 250000;
  utcnow := mk_datetime 2022 11 5 15 29 59 0
|}.

(** A row of 27 fields from the eleven the importer reads. *)
Definition row (city_ zip_ status_ capacity_ substance_ last_used_ installed_
                lat_ lon_ : string) : RawRow :=
  ["38-12345"; "Corner Garage"; "1 Main St"; city_; zip_; "A1"; status_; "a";
   capacity_; substance_; last_used_; "Removed from Ground"; "Steel"; "";
   "Fiberglass"; ""; installed_; "Spill Bucket"; "Ball Float Valve";
   lat_; lon_; ""; ""; ""; ""; ""; ""].

Definition header : RawRow :=
  ["UST Site ID Number"; "Site Name"; "Site Address"; "Site City"; "Site Zip";
   "Tank No."; "Status of Tank"; "Compartment";
   "Estimated Total Capacity (gallons)"; "Substance Currently Stored";
   "Last Used Date"; "Closure Type"; "Construction Type - Tank";
   "Tank Details"; "Construction Type - Piping"; "Piping Details";
   "Installation Date"; "Spill Protection"; "Overfill Protection";
   "Tank Latitude"; "Tank Longitude"; "Tank Collection Method";
   "Tank Reference Point Type"; "UST Site Latitude"; "UST Site Longitude";
   "Site Collection Method"; "Site Reference Point Type"].

Definition plain : RawRow :=
  row " Hartford " "06101" "Permanently Closed" "1000" "Gasoline"
      "05/10/2021" "01/02/1990" "41.75" "-72.5".

(** The record of the row [plain]. *)
Definition plain_tank : TankPoint :=
  mk_TankPoint "Hartford" "Removed from Ground" "Fiberglass" "Ball Float Valve"
    "Spill Bucket" "Permanently Closed" "Gasoline" 1000 "89e7"
    41.75%float (-72.5)%float (mk_datetime 2021 5 10 0 0 0 0).

(** A row without coordinates whose postal code the database knows. *)
Definition by_postal_code : RawRow :=
  row "Avon" "06101" "Permanently Closed" "550" "Heating Oil" "" "01/02/1990" "" "".

(** A row whose latitude field reads zero. *)
Definition zero_latitude : RawRow :=
  row "Avon" "06001" "Permanently Closed" "1000" "Gasoline"
      "05/10/2021" "" "0.0" "-72.5".

(** Three records of the dates T, T and T-1, told apart by their city. *)
Definition tank_at (city_ : string) (d : datetime) : TankPoint :=
  mk_TankPoint city_ "" "" "" "" "" "" 1000 "89e7" 41.75%float (-72.5)%float d.

End Sample.

(** ** Vocabulary of the statements *)

(** The text of column [i], for a row that has it. *)
Definition column (row : RawRow) (i : nat) : string := default "" (row !! i).

(** The rows that are not the header row. *)
Definition data_rows (rows : list RawRow) : list RawRow :=
  filter (fun row => row !! UstToken.ID <> Some HEADER_ID) rows.

(** The truncating call, when asked for. *)
Definition truncation (ext : Externals) (org bucket : string) (truncate : bool)
  : list store_call :=
  if truncate then [DeleteCall START_OF_TIME (utcnow ext) bucket org "fuel_tanks"] else [].

(** The row carries a date that is read and does not parse: the last used
    date, or, when that field is empty and the status does not say
    [In Use], the installation date. *)
Definition unparsable_date (row : RawRow) : Prop :=
  exists last,
    row !! UstToken.LAST_USED_DATE = Some last /\
    ((last <> "" /\ Strptime.strptime_mdY last = None) \/
     (last = "" /\
      exists st inst,
        row !! UstToken.STATUS = Some st /\ Py.re_search "In Use" st = false /\
        row !! UstToken.INSTALLATION_DATE = Some inst /\ inst <> "" /\
        Strptime.strptime_mdY inst = None)).

Definition non_numeric_capacity (row : RawRow) : Prop :=
  exists c,
    row !! UstToken.ESTIMATED_TOTAL_CAPACITY = Some c /\ Py.int (Py.strip c) = None.

(** What the decoder has seen when it builds a record. *)
Record accepted_from (ext : Externals) (now_ : datetime) (row : RawRow) (t : TankPoint) : Prop := {
  acc_not_header : row !! UstToken.ID <> Some HEADER_ID;
  acc_last_used : resolve_last_used now_ row = Ok (last_used_date t);
  acc_capacity : exists c, row !! UstToken.ESTIMATED_TOTAL_CAPACITY = Some c /\
                   Py.int (Py.strip c) = Some (estimated_total_capacity t);
  acc_location : resolve_location ext row = Ok (Some (lat t), Some (lon t));
  acc_lat_truthy : Py.float_truthy (lat t) = true;
  acc_lon_truthy : Py.float_truthy (lon t) = true;
  acc_token : lat_lon_to_token ext (lat t) (lon t) S2_LEVEL = Some (s2_cell_id_token t);
  acc_city : city t = Py.strip (column row UstToken.CITY);
  acc_closure : closure_type t = Py.strip (column row UstToken.CLOSURE_TYPE);
  acc_construction :
    construction_type t = Py.strip (column row UstToken.CONSTRUCTION_TYPE_PIPING);
  acc_spill : spill_protection t = Py.strip (column row UstToken.SPILL_PROTECTION);
  acc_overfill : overfill_protection t = Py.strip (column row UstToken.OVERFILL_PROTECTION);
  acc_substance : substance_stored t = Py.strip (column row UstToken.SUBSTANCE_STORED);
  acc_status : status t = Py.strip (column row UstToken.STATUS)
}.

(** The points of the write calls among [calls], in order. *)
Definition written_points (calls : list store_call) : list Point :=
  omap (fun c => match c with WriteCall _ _ p => Some p | _ => None end) calls.

(** What the loop body does with row number [i] of the file. *)
Definition outcome_at (ext : Externals) (i : nat) (row : RawRow) : res decoded :=
  decode_row ext (now ext i) row.

Definition accepted_tank (r : res decoded) : option TankPoint :=
  match r with
  | Ok (Accepted tank) => Some tank
  | _ => None
  end.

Definition is_ignored (r : res decoded) : bool :=
  match r with
  | Ok Ignored => true
  | _ => false
  end.

(** The records of the accepted rows of a file, in the order of the file. *)
Definition accepted_in_order (ext : Externals) (rows : list RawRow) : list TankPoint :=
  omap accepted_tank (imap (outcome_at ext) rows).

(** The seven texts of a record. *)
Definition texts (tank : TankPoint) : list string :=
  [city tank; closure_type tank; construction_type tank; overfill_protection tank;
   spill_protection tank; status tank; substance_stored tank].

(** The last character of a text, if any. *)
Fixpoint last_char (s : string) : option ascii :=
  match s with
  | EmptyString => None
  | String c EmptyString => Some c
  | String _ s' => last_char s'
  end.

Definition first_char (s : string) : option ascii :=
  match s with
  | EmptyString => None
  | String c _ => Some c
  end.

(** A midnight of the calendar, years 1 to 9999. *)
Definition calendar_midnight (d : datetime) : Prop :=
  1 <= year d <= 9999 /\ 1 <= month d <= 12 /\
  1 <= day d <= Strptime.days_in_month (year d) (month d) /\
  hour d = 0 /\ minute d = 0 /\ second d = 0 /\ microsecond d = 0.

(** The columns the loop body reads. *)
Definition read_columns : list nat :=
  [UstToken.ID; UstToken.CITY; UstToken.ZIP; UstToken.STATUS;
   UstToken.ESTIMATED_TOTAL_CAPACITY; UstToken.SUBSTANCE_STORED;
   UstToken.LAST_USED_DATE; UstToken.CLOSURE_TYPE; UstToken.CONSTRUCTION_TYPE_PIPING;
   UstToken.INSTALLATION_DATE; UstToken.SPILL_PROTECTION; UstToken.OVERFILL_PROTECTION;
   UstToken.LATITUDE; UstToken.LONGITUDE].

(** * Properties *)

(** ** The order on [datetime] *)

Lemma lex_ltb_irrefl (a : list Z) : lex_ltb a a = false.
Proof.
  induction a as [|x a IH]; simpl; [done|].
  rewrite IH, Z.ltb_irrefl. by rewrite andb_false_r.
Qed.

Lemma lex_ltb_cons (x y : Z) (a b : list Z) :
  lex_ltb (x :: a) (y :: b) = true <-> x < y \/ (x = y /\ lex_ltb a b = true).
Proof. simpl. rewrite orb_true_iff, andb_true_iff, Z.ltb_lt, Z.eqb_eq. tauto. Qed.

Lemma lex_ltb_trans (a b c : list Z) :
  lex_ltb a b = true -> lex_ltb b c = true -> lex_ltb a c = true.
Proof.
  revert b c. induction a as [|x a IH]; intros [|y b] [|z c]; try done.
  rewrite !lex_ltb_cons. intros [H1|[-> H1]] [H2|[-> H2]]; eauto with lia.
Qed.

Lemma lex_ltb_trichotomy (a b : list Z) :
  length a = length b -> lex_ltb a b = false -> lex_ltb b a = false -> a = b.
Proof.
  revert b. induction a as [|x a IH]; intros [|y b]; try done.
  intros [= Hlen] Hab Hba.
  apply not_true_iff_false in Hab, Hba. rewrite lex_ltb_cons in Hab, Hba.
  assert (x = y) as -> by lia.
  f_equal. apply IH; [done| |]; apply not_true_iff_false; intros ?; tauto.
Qed.

Lemma dt_fields_inj (a b : datetime) : dt_fields a = dt_fields b -> a = b.
Proof. destruct a, b. unfold dt_fields; simpl. by intros [= -> -> -> -> -> -> ->]. Qed.

Lemma dt_ltb_irrefl (a : datetime) : dt_ltb a a = false.
Proof. apply lex_ltb_irrefl. Qed.

Lemma dt_ltb_trans (a b c : datetime) :
  dt_ltb a b = true -> dt_ltb b c = true -> dt_ltb a c = true.
Proof. apply lex_ltb_trans. Qed.

(** Two datetimes neither of which is below the other are the same. *)
Lemma dt_ltb_trichotomy (a b : datetime) :
  dt_ltb a b = false -> dt_ltb b a = false -> a = b.
Proof. intros H1 H2. apply dt_fields_inj, lex_ltb_trichotomy; done. Qed.

Lemma dt_ltb_asym (a b : datetime) : dt_ltb a b = true -> dt_ltb b a = false.
Proof.
  intros H. destruct (dt_ltb b a) eqn:E; [|done].
  pose proof (dt_ltb_trans _ _ _ H E) as F. by rewrite dt_ltb_irrefl in F.
Qed.

Lemma dt_leb_refl (a : datetime) : dt_leb a a = true.
Proof. unfold dt_leb. by rewrite dt_ltb_irrefl. Qed.

Lemma dt_leb_trans (a b c : datetime) :
  dt_leb a b = true -> dt_leb b c = true -> dt_leb a c = true.
Proof.
  unfold dt_leb. rewrite !negb_true_iff. intros Hba Hcb.
  destruct (dt_ltb c a) eqn:Hca; [|done].
  destruct (dt_ltb a b) eqn:Hab.
  - by rewrite (dt_ltb_trans _ _ _ Hca Hab) in Hcb.
  - rewrite (dt_ltb_trichotomy _ _ Hab Hba) in Hca. by rewrite Hca in Hcb.
Qed.

Lemma dt_leb_antisym (a b : datetime) :
  dt_leb a b = true -> dt_leb b a = true -> a = b.
Proof.
  unfold dt_leb. rewrite !negb_true_iff. intros H1 H2. by apply dt_ltb_trichotomy.
Qed.

(** ** The stable descending sort *)

Section StableSortFacts.
Context {A : Type} (key : A -> datetime).

#[global] Instance desc_trans : Transitive (desc key).
Proof. intros a b c Hab Hbc. unfold desc in *. by eapply dt_leb_trans. Qed.

Lemma insert_desc_perm (x : A) (l : list A) : insert_desc key x l ≡ₚ x :: l.
Proof.
  induction l as [|y l IH]; simpl; [done|].
  destruct (dt_ltb (key x) (key y)); [|done].
  rewrite IH. apply Permutation_swap.
Qed.

Lemma sort_desc_perm (l : list A) : sort_desc key l ≡ₚ l.
Proof.
  induction l as [|x l IH]; simpl; [done|].
  by rewrite insert_desc_perm, IH.
Qed.

Lemma insert_desc_HdRel (a x : A) (l : list A) :
  desc key a x -> HdRel (desc key) a l -> HdRel (desc key) a (insert_desc key x l).
Proof.
  intros Hax Hl. destruct l as [|y l]; simpl; [by constructor|].
  inversion_clear Hl. destruct (dt_ltb (key x) (key y)); by constructor.
Qed.

Lemma insert_desc_sorted (x : A) (l : list A) :
  Sorted (desc key) l -> Sorted (desc key) (insert_desc key x l).
Proof.
  induction l as [|y l IH]; simpl; intros Hs.
  - repeat constructor.
  - inversion_clear Hs as [|? ? Hl Hy].
    destruct (dt_ltb (key x) (key y)) eqn:E.
    + constructor; [by apply IH|].
      apply insert_desc_HdRel; [|done].
      unfold desc, dt_leb. by rewrite (dt_ltb_asym _ _ E).
    + constructor; [by constructor|].
      constructor. unfold desc, dt_leb. by rewrite E.
Qed.

Lemma sort_desc_sorted (l : list A) : Sorted (desc key) (sort_desc key l).
Proof.
  induction l as [|x l IH]; simpl; [constructor|]. by apply insert_desc_sorted.
Qed.

Lemma sort_desc_strongly_sorted (l : list A) : StronglySorted (desc key) (sort_desc key l).
Proof. apply Sorted_StronglySorted; [apply _|apply sort_desc_sorted]. Qed.

Lemma with_key_cons (d : datetime) (x : A) (l : list A) :
  with_key key d (x :: l) = if decide (key x = d) then x :: with_key key d l else with_key key d l.
Proof. unfold with_key. by rewrite filter_cons. Qed.

Lemma insert_desc_with_key (d : datetime) (x : A) (l : list A) :
  with_key key d (insert_desc key x l) = with_key key d (x :: l).
Proof.
  induction l as [|y l IH]; simpl; [done|].
  destruct (dt_ltb (key x) (key y)) eqn:E; [|done].
  rewrite (with_key_cons d y), IH, !with_key_cons.
  destruct (decide (key y = d)) as [Hy|Hy], (decide (key x = d)) as [Hx|Hx]; try done.
  rewrite Hx, Hy, dt_ltb_irrefl in E. done.
Qed.

Lemma sort_desc_with_key (d : datetime) (l : list A) :
  with_key key d (sort_desc key l) = with_key key d l.
Proof.
  induction l as [|x l IH]; simpl; [done|].
  by rewrite insert_desc_with_key, !with_key_cons, IH.
Qed.

End StableSortFacts.

Section StableSortUnique.
Context {A : Type} (key : A -> datetime).

Lemma with_key_elem (d : datetime) (x : A) (l : list A) :
  x ∈ with_key key d l <-> x ∈ l /\ key x = d.
Proof. unfold with_key. rewrite list_elem_of_filter. tauto. Qed.

Lemma with_key_tail (x : A) (l1 l2 : list A) :
  (forall d, with_key key d (x :: l1) = with_key key d (x :: l2)) ->
  forall d, with_key key d l1 = with_key key d l2.
Proof.
  intros H d. specialize (H d). rewrite !with_key_cons in H.
  destruct (decide (key x = d)); congruence.
Qed.

(** The head of a sorted list has the greatest key of the list. *)
Lemma sorted_head_max (a x : A) (l : list A) :
  StronglySorted (desc key) (a :: l) -> x ∈ a :: l -> dt_leb (key x) (key a) = true.
Proof.
  intros Hs Hx. apply StronglySorted_inv in Hs as [_ Hall].
  apply elem_of_cons in Hx as [->|Hx]; [apply dt_leb_refl|].
  rewrite Forall_forall in Hall. by apply Hall.
Qed.

(** Two descending lists that hold, for every key, the same elements in
    the same order are one list. *)
Lemma sorted_with_key_eq (l1 l2 : list A) :
  StronglySorted (desc key) l1 -> StronglySorted (desc key) l2 ->
  (forall d, with_key key d l1 = with_key key d l2) -> l1 = l2.
Proof.
  revert l2. induction l1 as [|a l1 IH]; intros [|b l2] H1 H2 Hk.
  - done.
  - specialize (Hk (key b)). rewrite with_key_cons in Hk.
    by destruct (decide (key b = key b)).
  - specialize (Hk (key a)). rewrite with_key_cons in Hk.
    by destruct (decide (key a = key a)).
  - assert (Ha : a ∈ b :: l2).
    { eapply (with_key_elem (key a)). rewrite <- Hk.
      apply with_key_elem. split; [left|done]. }
    assert (Hb : b ∈ a :: l1).
    { eapply (with_key_elem (key b)). rewrite Hk.
      apply with_key_elem. split; [left|done]. }
    assert (Hkey : key a = key b).
    { apply dt_leb_antisym; eapply sorted_head_max; eauto. }
    assert (a = b) as <-.
    { specialize (Hk (key a)). rewrite !with_key_cons in Hk.
      destruct (decide (key a = key a)); [|done].
      destruct (decide (key b = key a)); [|congruence].
      congruence. }
    f_equal. apply IH.
    + by apply StronglySorted_inv in H1 as [? _].
    + by apply StronglySorted_inv in H2 as [? _].
    + by apply with_key_tail with a.
Qed.

(** X15. Whatever list a stable descending sort returns for [l], it is
    [sort_desc key l]: the result of the ordering stage is the only list
    in descending order that keeps, for every date, the records of that date
    in the order they had. *)
Lemma stable_sort_unique (l l' : list A) :
  Sorted (desc key) l' ->
  (forall d, with_key key d l' = with_key key d l) ->
  l' = sort_desc key l.
Proof.
  intros Hs Hk. apply sorted_with_key_eq.
  - apply Sorted_StronglySorted; [apply _|done].
  - apply sort_desc_strongly_sorted.
  - intros d. by rewrite Hk, sort_desc_with_key.
Qed.

End StableSortUnique.

(** C4. The ordering stage returns a permutation of the accepted records
    that is sorted by last used date, most recent first (every record stands
    before all records that are not more recent), and it is stable: for each
    date, the records of that date come out in the order they went in. *)
Theorem ordering_is_stable_descending_sort (l : list TankPoint) :
  sort_desc last_used_date l ≡ₚ l /\
  StronglySorted (fun a b => dt_leb (last_used_date b) (last_used_date a) = true)
    (sort_desc last_used_date l) /\
  forall d : datetime,
    filter (fun t => last_used_date t = d) (sort_desc last_used_date l)
    = filter (fun t => last_used_date t = d) l.
Proof.
  split; [apply sort_desc_perm|]. split.
  - apply (sort_desc_strongly_sorted last_used_date).
  - intros d. apply (sort_desc_with_key last_used_date).
Qed.

(** ** Facts about the builtins *)

Module PyFacts.
Import Py.

Lemma str_truthy_false (s : string) : str_truthy s = false <-> s = "".
Proof. destruct s; simpl; split; congruence. Qed.

Lemma str_truthy_true (s : string) : str_truthy s = true <-> s <> "".
Proof. destruct s; simpl; split; congruence. Qed.

Lemma startswith_spec (p s : string) :
  startswith p s = true <-> exists post, s = String.append p post.
Proof.
  revert s. induction p as [|a p IH]; intros s; simpl.
  - split; [intros _; by exists s|done].
  - destruct s as [|b s].
    + split; [done|]. by intros [post [=]].
    + destruct (Ascii.eqb_spec a b) as [->|Hne].
      * rewrite IH. split; intros [post E]; exists post.
        -- simpl. by rewrite E.
        -- simpl in E. by injection E.
      * split; [done|]. intros [post E]. simpl in E. by injection E.
Qed.

(** [re.search] with a literal pattern finds it exactly in the texts that
    contain it. *)
Lemma re_search_spec (p s : string) :
  re_search p s = true <->
  exists pre post, s = String.append pre (String.append p post).
Proof.
  induction s as [|c s IH].
  - simpl. rewrite orb_false_r, startswith_spec. split.
    + intros [post E]. by exists "", post.
    + intros [pre [post E]]. destruct pre; [by exists post|done].
  - cbn [re_search]. rewrite orb_true_iff, IH, startswith_spec. split.
    + intros [[post E]|[pre [post E]]].
      * by exists "", post.
      * exists (String c pre), post. simpl. by rewrite E.
    + intros [[|a pre] [post E]].
      * left. by exists post.
      * right. injection E as _ E. by exists pre, post.
Qed.

Lemma lstrip_head (s : string) :
  lstrip s = "" \/ exists c r, lstrip s = String c r /\ is_space c = false.
Proof.
  induction s as [|c s IH]; simpl; [by left|].
  destruct (is_space c) eqn:E; [done|]. right. by exists c, s.
Qed.

Lemma rstrip_idemp (s : string) : rstrip (rstrip s) = rstrip s.
Proof.
  induction s as [|c s IH]; simpl; [done|].
  destruct (rstrip s) as [|a r] eqn:E.
  - destruct (is_space c) eqn:Ec; simpl; [done|]. by rewrite Ec.
  - cbn [rstrip] in *. fold rstrip in *. by rewrite IH.
Qed.

Lemma rstrip_head (c : ascii) (s : string) :
  is_space c = false -> exists r, rstrip (String c s) = String c r.
Proof.
  intros Hc. simpl. destruct (rstrip s).
  - rewrite Hc. by eexists.
  - by eexists.
Qed.

Lemma strip_idemp (s : string) : strip (strip s) = strip s.
Proof.
  unfold strip. destruct (lstrip_head s) as [->|(c & r & -> & Hc)]; [done|].
  destruct (rstrip_head c r Hc) as [r' E]. rewrite E.
  cbn [lstrip]. rewrite Hc, <- E. apply rstrip_idemp.
Qed.

Lemma digit_of_range (c : ascii) (d : Z) : digit_of c = Some d -> 0 <= d <= 9.
Proof.
  unfold digit_of. destruct (_ && _) eqn:E; [|done].
  intros [= <-]. apply andb_true_iff in E as [H1 H2].
  apply Nat.leb_le in H1, H2. lia.
Qed.

Lemma int_digits_nonneg (l : list ascii) (acc z : Z) :
  int_digits acc l = Some z -> 0 <= acc -> 0 <= z.
Proof.
  remember (length l) as n eqn:Hn. revert l acc Hn.
  induction n as [n IH] using lt_wf_ind. intros l acc -> H Hacc.
  destruct l as [|c l]; simpl in H; [by injection H as <-|].
  destruct (digit_of c) as [d|] eqn:Ed.
  - apply digit_of_range in Ed.
    eapply (IH (length l)); [simpl; lia|done|exact H|lia].
  - destruct (Ascii.eqb c "_"); [|done].
    destruct l as [|c' l]; [done|].
    destruct (digit_of c') as [d|] eqn:Ed'; [|done].
    apply digit_of_range in Ed'.
    eapply (IH (length l)); [simpl; lia|done|exact H|lia].
Qed.

Lemma int_unsigned_nonneg (l : list ascii) (z : Z) : int_unsigned l = Some z -> 0 <= z.
Proof.
  destruct l as [|c l]; simpl; [done|].
  destruct (digit_of c) as [d|] eqn:Ed; [|done].
  intros H. apply digit_of_range in Ed. eapply int_digits_nonneg; [exact H|lia].
Qed.

(** [int] answers a negative number only for a text whose first
    character, blanks aside, is the minus sign. *)
Lemma c_space_is_space (c : ascii) : is_c_space c = true -> is_space c = true.
Proof.
  unfold is_c_space, is_space. rewrite !orb_true_iff, !andb_true_iff.
  rewrite Nat.eqb_eq, !Nat.leb_le. intros [[H1 H2]|H]; [by left|right; lia].
Qed.

Lemma lstrip_skip_c_spaces (s : string) : lstrip (skip_c_spaces s) = lstrip s.
Proof.
  induction s as [|c s IH]; [done|]. cbn [skip_c_spaces].
  destruct (is_c_space c) eqn:E; [|done].
  rewrite IH. simpl. by rewrite (c_space_is_space c E).
Qed.

Lemma drop_trailing_c_spaces_head (s r : string) (c : ascii) :
  drop_trailing_c_spaces s = String c r -> exists r0, s = String c r0.
Proof.
  destruct s as [|a s]; [done|]. simpl.
  destruct (drop_trailing_c_spaces s).
  - destruct (is_c_space a); [done|]. intros [= -> _]. by eexists.
  - intros [= -> _]. by eexists.
Qed.

Lemma int_negative (s : string) (z : Z) :
  int s = Some z -> z < 0 -> startswith "-" (strip s) = true.
Proof.
  unfold int.
  destruct (drop_trailing_c_spaces (skip_c_spaces s)) as [|c r] eqn:E; simpl; [done|].
  destruct (Ascii.eqb c "-") eqn:E1.
  - apply Ascii.eqb_eq in E1 as ->. intros _ _.
    apply drop_trailing_c_spaces_head in E as [r0 E].
    unfold strip. rewrite <- lstrip_skip_c_spaces, E.
    destruct (rstrip_head "-" r0 eq_refl) as [r' Hr].
    change (lstrip (String "-" r0)) with (String "-" r0). by rewrite Hr.
  - destruct (Ascii.eqb c "+").
    + intros H ?. apply int_unsigned_nonneg in H. lia.
    + intros H ?. change (int_unsigned (c :: list_ascii_of_string r) = Some z) in H.
      apply int_unsigned_nonneg in H. lia.
Qed.

End PyFacts.

(** ** Facts about the decoder *)

Lemma bind_Ok_inv {A B} (m : res A) (k : A -> res B) (b : B) :
  m ≫= k = Ok b -> exists a, m = Ok a /\ k a = Ok b.
Proof. destruct m as [a|e]; [|done]. intros H. by exists a. Qed.

Lemma value_or_raise_Ok {A} (o : option A) (a : A) :
  value_or_raise o = Ok a <-> o = Some a.
Proof. destruct o; simpl; split; congruence. Qed.

Lemma getitem_Ok (row : RawRow) (i : nat) (s : string) :
  getitem row i = Ok s <-> row !! i = Some s.
Proof. unfold getitem. destruct (row !! i); split; congruence. Qed.

Lemma getitem_column (row : RawRow) (i : nat) :
  (i < length row)%nat -> getitem row i = Ok (column row i).
Proof.
  intros H. apply lookup_lt_is_Some in H as [s Hs].
  unfold getitem, column. by rewrite Hs.
Qed.

Lemma getitem_insert_ne (row : RawRow) (i j : nat) (s : string) :
  i <> j -> getitem (<[i := s]> row) j = getitem row j.
Proof. intros H. unfold getitem. by rewrite list_lookup_insert_ne. Qed.

Lemma getitem_insert_eq (row : RawRow) (i : nat) (s : string) :
  (i < length row)%nat -> getitem (<[i := s]> row) i = Ok s.
Proof. intros H. unfold getitem. by rewrite list_lookup_insert_eq. Qed.

Ltac split_location H :=
  match type of H with
  | match ?p with _ => _ end = _ => destruct p as [[?x|] [?y|]]
  end.

Ltac invert_binds H :=
  repeat (let a := fresh "v" in
          let E := fresh "E" in
          apply bind_Ok_inv in H as (a & E & H)).

Section DecoderFacts.
Context (ext : Externals).

Lemma resolve_location_direct (row : RawRow) (la lo : string) :
  row !! UstToken.LATITUDE = Some la -> row !! UstToken.LONGITUDE = Some lo ->
  la <> "" -> lo <> "" ->
  resolve_location ext row =
    (x ← value_or_raise (py_float ext la);
     y ← value_or_raise (py_float ext lo);
     Ok (Some x, Some y)).
Proof.
  intros Hla Hlo Ha Ho. unfold resolve_location.
  apply getitem_Ok in Hla, Hlo. rewrite Hla. simpl.
  apply PyFacts.str_truthy_true in Ha, Ho. rewrite Ha, Hlo. simpl. by rewrite Ho.
Qed.

Lemma resolve_location_fallback (row : RawRow) (la : string) :
  row !! UstToken.LATITUDE = Some la ->
  la = "" \/ row !! UstToken.LONGITUDE = Some "" ->
  resolve_location ext row = zip_branch ext row.
Proof.
  intros Hla Hcase. unfold resolve_location.
  apply getitem_Ok in Hla. rewrite Hla. simpl.
  destruct (Py.str_truthy la) eqn:Ea.
  - destruct Hcase as [->|Hlo]; [done|].
    apply getitem_Ok in Hlo. by rewrite Hlo.
  - done.
Qed.

Lemma decode_row_header (now_ : datetime) (row : RawRow) :
  row !! UstToken.ID = Some HEADER_ID -> decode_row ext now_ row = Ok Skipped.
Proof. intros H. unfold decode_row. apply getitem_Ok in H. by rewrite H. Qed.

Lemma decode_row_skipped_inv (now_ : datetime) (row : RawRow) :
  decode_row ext now_ row = Ok Skipped -> row !! UstToken.ID = Some HEADER_ID.
Proof.
  intros H. unfold decode_row in H.
  apply bind_Ok_inv in H as (id & Hid & H).
  destruct (String.eqb_spec id HEADER_ID) as [->|Hne]; [by apply getitem_Ok|].
  invert_binds H. split_location H; try done.
  destruct (_ && _); [|done]. by invert_binds H.
Qed.

Lemma decode_row_accepted_inv (now_ : datetime) (row : RawRow) (t : TankPoint) :
  decode_row ext now_ row = Ok (Accepted t) -> accepted_from ext now_ row t.
Proof.
  intros H. unfold decode_row in H.
  apply bind_Ok_inv in H as (id & Hid & H).
  destruct (String.eqb_spec id HEADER_ID) as [->|Hne]; [done|].
  invert_binds H. split_location H; try done.
  destruct (Py.float_truthy x && Py.float_truthy y) eqn:Et; [|done].
  apply andb_true_iff in Et as [Ex Ey].
  apply bind_Ok_inv in H as (token & Htok & H). injection H as <-.
  repeat match goal with
         | G : value_or_raise _ = Ok _ |- _ => apply value_or_raise_Ok in G
         | G : getitem _ _ = Ok _ |- _ => apply getitem_Ok in G
         end.
  split; simpl; unfold column;
    repeat match goal with
           | G : row !! _ = Some _ |- _ => rewrite G
           end; simpl; eauto.
  congruence.
Qed.

(** A row of 27 columns that is not the header row and whose date and
    capacity parse: what is left of the loop body is the location. *)
Lemma decode_row_well_formed (now_ : datetime) (row : RawRow)
    (d : datetime) (z : Z) (loc : option float * option float) :
  length row = 27%nat ->
  row !! UstToken.ID <> Some HEADER_ID ->
  resolve_last_used now_ row = Ok d ->
  Py.int (Py.strip (column row UstToken.ESTIMATED_TOTAL_CAPACITY)) = Some z ->
  resolve_location ext row = Ok loc ->
  decode_row ext now_ row =
    match loc with
    | (Some x, Some y) =>
        if Py.float_truthy x && Py.float_truthy y then
          token ← value_or_raise (lat_lon_to_token ext x y S2_LEVEL);
          Ok (Accepted {|
                city := Py.strip (column row UstToken.CITY);
                last_used_date := d;
                closure_type := Py.strip (column row UstToken.CLOSURE_TYPE);
                construction_type := Py.strip (column row UstToken.CONSTRUCTION_TYPE_PIPING);
                estimated_total_capacity := z;
                spill_protection := Py.strip (column row UstToken.SPILL_PROTECTION);
                overfill_protection := Py.strip (column row UstToken.OVERFILL_PROTECTION);
                substance_stored := Py.strip (column row UstToken.SUBSTANCE_STORED);
                lat := x;
                lon := y;
                s2_cell_id_token := token;
                status := Py.strip (column row UstToken.STATUS)
              |})
        else Ok Ignored
    | _ => Ok Ignored
    end.
Proof.
  intros Hlen Hhd Hlast Hcap Hloc. unfold decode_row.
  rewrite !getitem_column by (rewrite Hlen; compute; lia).
  simpl. destruct (String.eqb_spec (column row UstToken.ID) HEADER_ID) as [E|_].
  { destruct Hhd. rewrite <- E. apply getitem_Ok, getitem_column.
    rewrite Hlen. compute; lia. }
  rewrite Hlast. simpl. rewrite Hcap. simpl. rewrite Hloc. simpl.
  by destruct loc as [[x|] [y|]].
Qed.

End DecoderFacts.

(** ** Facts about the loop and the driver *)

Section DriverFacts.
Context (ext : Externals).

Lemma parse_rows_app (i : nat) (l1 l2 : list RawRow) (st : loop_state) :
  parse_rows ext i (l1 ++ l2) st =
    match parse_rows ext i l1 st with
    | (st', None) => parse_rows ext (i + length l1) l2 st'
    | stopped => stopped
    end.
Proof.
  revert i st. induction l1 as [|row l1 IH]; intros i st; simpl.
  - by rewrite Nat.add_0_r.
  - destruct (decode_row ext (now ext i) row); [|done].
    rewrite IH.
    by replace (Datatypes.S i + length l1)%nat
      with (i + Datatypes.S (length l1))%nat by lia.
Qed.

Lemma loop_step_count (st : loop_state) (d : decoded) :
  (length (tanks (loop_step st d)) + ignored (loop_step st d) =
   length (tanks st) + ignored st + (if d is Skipped then 0 else 1))%nat.
Proof. destruct d; simpl; rewrite ?length_app; simpl; lia. Qed.

(** The state the loop stops in counts the data rows it has gone through:
    all rows when it ends normally, the rows before the raising row
    otherwise. *)
Lemma parse_rows_inv (i : nat) (rows : list RawRow) (st st' : loop_state)
    (r : option exn) :
  parse_rows ext i rows st = (st', r) ->
  exists done_ rest,
    rows = done_ ++ rest /\
    (length (tanks st') + ignored st' =
     length (tanks st) + ignored st + length (data_rows done_))%nat /\
    match r with
    | None => rest = []
    | Some e => exists bad rest',
        rest = bad :: rest' /\
        decode_row ext (now ext (i + length done_)) bad = Raise e
    end.
Proof.
  revert i st. induction rows as [|row rows IH]; intros i st H; simpl in H.
  - injection H as <- <-. exists [], []. simpl. split; [done|]. split; [lia|done].
  - destruct (decode_row ext (now ext i) row) as [d|e] eqn:Ed.
    + apply IH in H as (done_ & rest & -> & Hcount & Hr).
      exists (row :: done_), rest. split; [done|]. split.
      * rewrite Hcount, loop_step_count. unfold data_rows. rewrite filter_cons.
        destruct (decide (row !! UstToken.ID <> Some HEADER_ID)) as [Hd|Hd].
        -- destruct d; simpl; try lia.
           by apply decode_row_skipped_inv in Ed.
        -- apply dec_stable in Hd.
           rewrite (decode_row_header ext _ _ Hd) in Ed. injection Ed as <-. lia.
      * destruct r as [e|]; [|done].
        destruct Hr as (bad & rest' & -> & Hbad). exists bad, rest'.
        split; [done|].
        by replace (i + length (row :: done_))%nat with (Datatypes.S i + length done_)%nat
          by (simpl; lia).
    + injection H as <- <-. exists [], (row :: rows). simpl.
      split; [done|]. split; [lia|]. exists row, rows. by rewrite Nat.add_0_r.
Qed.

Lemma write_all_spec (bucket org measurement : string) (l : list TankPoint) (n : nat) :
  write_all bucket org measurement l n =
    (map (fun tank => WriteCall bucket org (tank_point measurement tank)) l,
     (n + length l)%nat).
Proof.
  revert n. induction l as [|tank l IH]; intros n; simpl.
  - by rewrite Nat.add_0_r.
  - rewrite IH. f_equal. lia.
Qed.

(** The three ways [import_data] ends. *)
Lemma import_data_cases (org bucket : string) (rows : list RawRow) (truncate : bool) :
  import_data ext org bucket rows truncate =
    match parse_rows ext 0 rows loop_init with
    | (_, Some e) => (truncation ext org bucket truncate, Aborted e)
    | (st, None) =>
        if decide (tanks st = []) then
          (truncation ext org bucket truncate, Aborted ValueError)
        else
          (truncation ext org bucket truncate
             ++ map (fun tank => WriteCall bucket org (tank_point "fuel_tanks" tank))
                    (sort_desc last_used_date (tanks st))
             ++ [FlushCall],
           Completed (length (tanks st)) (ignored st))
    end.
Proof.
  unfold import_data, truncation.
  destruct (parse_rows ext 0 rows loop_init) as [st [e|]]; [done|].
  destruct (tanks st) as [|t l] eqn:Et; [done|].
  rewrite write_all_spec. rewrite decide_False by done.
  simpl. do 2 f_equal.
  apply (Permutation_length (sort_desc_perm last_used_date (t :: l))).
Qed.

End DriverFacts.

(** * The claims *)

(** ** The driver: truncation, abort and counts *)

(** C1, as stated, fails. The data file holds the header row and nothing
    else, and truncation is asked for (the default): no record is accepted
    and the run aborts, yet the store has already received the truncating
    delete call. *)
Lemma header_only_run_has_deleted :
  tanks (parse_rows Sample.ext 0 [Sample.header] loop_init).1 = [] /\
  (import_data Sample.ext "org" "bucket" [Sample.header] true).2 = Aborted ValueError /\
  (import_data Sample.ext "org" "bucket" [Sample.header] true).1 =
    [DeleteCall START_OF_TIME (utcnow Sample.ext) "bucket" "org" "fuel_tanks"].
Proof. repeat split. Qed.

(** C1, amended. When no record is accepted over the whole run, the run
    aborts and the store receives no write call; the truncating delete call
    is issued before the rows are decoded, so it is the one call the store
    receives when truncation is asked for, and the store receives no call at
    all when it is not. *)
Theorem zero_accepted_run_aborts_before_any_write
    (ext : Externals) (org bucket : string) (rows : list RawRow) (truncate : bool) :
  tanks (parse_rows ext 0 rows loop_init).1 = [] ->
  exists e,
    import_data ext org bucket rows truncate =
      (if truncate
       then [DeleteCall START_OF_TIME (utcnow ext) bucket org "fuel_tanks"]
       else [],
       Aborted e) /\
    Forall (fun c => is_write c = false) (import_data ext org bucket rows truncate).1.
Proof.
  intros H. rewrite import_data_cases. unfold truncation.
  destruct (parse_rows ext 0 rows loop_init) as [st [e|]]; simpl in *.
  - exists e. split; [done|]. destruct truncate; repeat constructor.
  - rewrite decide_True by done. exists ValueError. split; [done|].
    destruct truncate; repeat constructor.
Qed.

Lemma zero_accepted_run_aborts_before_any_write_witness :
  exists e,
    import_data Sample.ext "org" "bucket" [Sample.header; Sample.header] false
      = ([], Aborted e) /\
    Forall (fun c => is_write c = false)
      (import_data Sample.ext "org" "bucket" [Sample.header; Sample.header] false).1.
Proof.
  apply (zero_accepted_run_aborts_before_any_write
           Sample.ext "org" "bucket" [Sample.header; Sample.header] false).
  reflexivity.
Defined.

(** C6. Whenever the parsing loop stops, the number of accepted records plus
    the number of ignored rows is the number of rows, the header row left
    out, that the loop has gone through: all rows of the file when it ends
    normally, the rows before the raising row otherwise. A row whose first
    field is the text [UST Site ID Number] changes neither number, any other
    row that is decoded without an exception is accepted or ignored, and the
    two numbers a completed run reports add up to the number of data rows
    of the file. *)
Theorem accepted_plus_ignored_counts_data_rows (ext : Externals) (rows : list RawRow) :
  (forall st r,
     parse_rows ext 0 rows loop_init = (st, r) ->
     exists done_ rest,
       rows = done_ ++ rest /\
       (length (tanks st) + ignored st = length (data_rows done_))%nat /\
       match r with
       | None => rest = []
       | Some e => exists bad rest',
           rest = bad :: rest' /\ decode_row ext (now ext (length done_)) bad = Raise e
       end) /\
  (forall i row rest st,
     row !! UstToken.ID = Some "UST Site ID Number" ->
     parse_rows ext i (row :: rest) st = parse_rows ext (Datatypes.S i) rest st) /\
  (forall now_ row d,
     row !! UstToken.ID <> Some "UST Site ID Number" ->
     decode_row ext now_ row = Ok d ->
     (exists tank, d = Accepted tank) \/ d = Ignored) /\
  (forall org bucket truncate calls count ign,
     import_data ext org bucket rows truncate = (calls, Completed count ign) ->
     (count + ign = length (data_rows rows))%nat).
Proof.
  repeat split.
  - intros st r H. apply parse_rows_inv in H as (done_ & rest & E & Hc & Hr).
    exists done_, rest. simpl in *. by rewrite Hc.
  - intros i row rest st H. simpl.
    by rewrite (decode_row_header ext _ _ H).
  - intros now_ row d Hne H. destruct d; eauto.
    by apply decode_row_skipped_inv in H.
  - intros org bucket truncate calls count ign. rewrite import_data_cases.
    destruct (parse_rows ext 0 rows loop_init) as [st [e|]] eqn:E; [done|].
    destruct (decide (tanks st = [])); [done|].
    intros [= _ <- <-].
    apply parse_rows_inv in E as (done_ & rest & -> & Hc & ->).
    rewrite Hc, app_nil_r. simpl. lia.
Qed.

Lemma accepted_plus_ignored_counts_data_rows_witness :
  exists count ign,
    (import_data Sample.ext "org" "bucket"
       [Sample.header; Sample.plain;
        Sample.row "Avon" "" "Permanently Closed" "550" "Heating Oil" "" "" "" ""]
       true).2 = Completed count ign /\
    (count + ign = 2)%nat.
Proof.
  destruct (import_data Sample.ext "org" "bucket"
       [Sample.header; Sample.plain;
        Sample.row "Avon" "" "Permanently Closed" "550" "Heating Oil" "" "" "" ""]
       true) as [calls out] eqn:E.
  assert (out = Completed 1 1) as -> by (vm_compute in E; congruence).
  exists 1%nat, 1%nat. split; [done|].
  destruct (accepted_plus_ignored_counts_data_rows Sample.ext
       [Sample.header; Sample.plain;
        Sample.row "Avon" "" "Permanently Closed" "550" "Heating Oil" "" "" "" ""])
    as (_ & _ & _ & H).
  apply (H _ _ _ _ _ _ E).
Defined.

(** ** The decoder: dates and capacity *)

Lemma resolve_last_used_unparsable (now_ : datetime) (row : RawRow) :
  unparsable_date row -> resolve_last_used now_ row = Raise ValueError.
Proof.
  intros (last & Hlast & Hcase). unfold resolve_last_used.
  apply getitem_Ok in Hlast. rewrite Hlast. simpl.
  destruct Hcase as [[Hne Hp]|[-> (st & inst & Hst & Hs & Hinst & Hne & Hp)]].
  - apply PyFacts.str_truthy_true in Hne. rewrite Hne. simpl.
    destruct (String.eqb_spec last ""); [by destruct last|]. by rewrite Hp.
  - simpl. apply getitem_Ok in Hst, Hinst. rewrite Hst. simpl. rewrite Hs, Hinst. simpl.
    apply PyFacts.str_truthy_true in Hne. by rewrite Hne, Hp.
Qed.

Lemma getitem_raise_short (row : RawRow) (i : nat) (e : exn) :
  getitem row i = Raise e -> (length row <= i)%nat /\ e = IndexError.
Proof.
  unfold getitem. destruct (row !! i) eqn:E; [done|].
  intros [= <-]. split; [|done]. by apply lookup_ge_None.
Qed.

Lemma value_or_raise_raise {A} (o : option A) (e : exn) :
  value_or_raise o = Raise e -> e = ValueError.
Proof. destruct o; simpl; congruence. Qed.

(** On a row of 27 columns the date resolution can only fail with a
    [ValueError]. *)
Lemma resolve_last_used_raise (now_ : datetime) (row : RawRow) (e : exn) :
  length row = 27%nat -> resolve_last_used now_ row = Raise e -> e = ValueError.
Proof.
  intros Hlen. unfold resolve_last_used.
  rewrite !getitem_column by (rewrite Hlen; compute; lia). simpl.
  repeat match goal with
         | |- context [if ?b then _ else _] => destruct b; simpl
         end;
    try done; apply value_or_raise_raise.
Qed.

Ltac short_row Hlen :=
  match goal with
  | G : getitem _ _ = Raise _ |- _ =>
      apply getitem_raise_short in G as [G _]; intros Hlen;
      rewrite Hlen in G; compute in G; lia
  end.

Lemma decode_row_fatal (ext : Externals) (now_ : datetime) (row : RawRow) :
  row !! UstToken.ID <> Some HEADER_ID ->
  unparsable_date row \/ non_numeric_capacity row ->
  exists e, decode_row ext now_ row = Raise e /\ (length row = 27%nat -> e = ValueError).
Proof.
  intros Hhd Hbad. unfold decode_row.
  destruct (getitem row UstToken.ID) as [id|e0] eqn:Eid; simpl;
    [|eexists; split; [done|short_row Hlen]].
  destruct (String.eqb_spec id HEADER_ID) as [->|_];
    [by apply getitem_Ok in Eid|].
  destruct Hbad as [Hdate|(c & Hc & Hint)].
  { rewrite (resolve_last_used_unparsable _ _ Hdate). simpl. by eexists. }
  destruct (resolve_last_used now_ row) as [d|e1] eqn:E1; simpl;
    [|eexists; split; [done|intros Hlen; by eapply resolve_last_used_raise]].
  destruct (getitem row UstToken.CITY) eqn:E2; simpl;
    [|eexists; split; [done|short_row Hlen]].
  destruct (getitem row UstToken.CLOSURE_TYPE) eqn:E3; simpl;
    [|eexists; split; [done|short_row Hlen]].
  destruct (getitem row UstToken.CONSTRUCTION_TYPE_PIPING) eqn:E4; simpl;
    [|eexists; split; [done|short_row Hlen]].
  apply getitem_Ok in Hc. rewrite Hc. simpl. rewrite Hint. simpl. by eexists.
Qed.

(** C7. A row, not the header row, whose last used date (or, when that is
    empty and the status does not say [In Use], whose installation date) is
    present and does not parse as month/day/year, or whose capacity is not
    an integer, makes the decoder raise: a [ValueError] when the row has its
    27 columns. The loop stops at that row with the state it had, whatever
    rows follow, so no later row is decoded, and the run aborts with that
    exception without a single write call. *)
Theorem malformed_date_or_capacity_aborts_run
    (ext : Externals) (i : nat) (row : RawRow) :
  row !! UstToken.ID <> Some "UST Site ID Number" ->
  unparsable_date row \/ non_numeric_capacity row ->
  exists e,
    decode_row ext (now ext i) row = Raise e /\
    (length row = 27%nat -> e = ValueError) /\
    (forall rest st, parse_rows ext i (row :: rest) st = (st, Some e)) /\
    (forall org bucket truncate before rest st,
       length before = i ->
       parse_rows ext 0 before loop_init = (st, None) ->
       import_data ext org bucket (before ++ row :: rest) truncate =
         (truncation ext org bucket truncate, Aborted e)).
Proof.
  intros Hhd Hbad.
  destruct (decode_row_fatal ext (now ext i) row Hhd Hbad) as (e & He & Hlen).
  exists e. repeat split; [done|done| |].
  - intros rest st. simpl. by rewrite He.
  - intros org bucket truncate before rest st <- Hb.
    rewrite import_data_cases, parse_rows_app, Hb. simpl. by rewrite He.
Qed.

Lemma malformed_date_or_capacity_aborts_run_witness :
  exists e,
    decode_row Sample.ext (now Sample.ext 1)
      (Sample.row "Avon" "06001" "Permanently Closed" "1,000" "Gasoline"
                  "05/10/2021" "" "41.75" "-72.5") = Raise e /\
    e = ValueError.
Proof.
  destruct (malformed_date_or_capacity_aborts_run Sample.ext 1
      (Sample.row "Avon" "06001" "Permanently Closed" "1,000" "Gasoline"
                  "05/10/2021" "" "41.75" "-72.5"))
    as (e & He & Hlen & _).
  - discriminate.
  - right. exists "1,000". split; reflexivity.
  - exists e. split; [exact He|]. apply Hlen. reflexivity.
Defined.

(** ** The format [%m/%d/%Y] *)

Module StrptimeFacts.
Import Strptime.

Lemma first_match_Some {A B} (alts : list A) (k : A -> option B) (b : B) :
  first_match alts k = Some b -> exists a, a ∈ alts /\ k a = Some b.
Proof.
  induction alts as [|a alts IH]; simpl; [done|].
  destruct (k a) as [b'|] eqn:E.
  - intros [= ->]. exists a. split; [left|done].
  - intros H. destruct (IH H) as (a' & Ha' & Hk). exists a'. split; [by right|done].
Qed.

Lemma digit_in_range (lo hi : Z) (c : ascii) (d : Z) :
  digit_in lo hi c = Some d -> lo <= d <= hi.
Proof.
  unfold digit_in. destruct (Py.digit_of c); [|done].
  destruct (_ && _) eqn:E; [|done]. intros [= <-].
  apply andb_true_iff in E as [H1 H2]. lia.
Qed.

Lemma two_digits_range (lo1 hi1 lo2 hi2 : Z) (l r : list ascii) (n : Z) :
  (n, r) ∈ two_digits lo1 hi1 lo2 hi2 l ->
  10 * lo1 + lo2 <= n <= 10 * hi1 + hi2.
Proof.
  unfold two_digits. destruct l as [|a [|b l]]; try by intros ?%elem_of_nil.
  destruct (digit_in lo1 hi1 a) eqn:Ea; [|by intros ?%elem_of_nil].
  destruct (digit_in lo2 hi2 b) eqn:Eb; [|by intros ?%elem_of_nil].
  intros [= -> ->]%list_elem_of_singleton.
  apply digit_in_range in Ea, Eb. lia.
Qed.

Lemma one_digit_range (lo hi : Z) (l r : list ascii) (n : Z) :
  (n, r) ∈ one_digit lo hi l -> lo <= n <= hi.
Proof.
  unfold one_digit. destruct l as [|a l]; [by intros ?%elem_of_nil|].
  destruct (digit_in lo hi a) eqn:Ea; [|by intros ?%elem_of_nil].
  intros [= -> ->]%list_elem_of_singleton. by apply digit_in_range in Ea.
Qed.

Lemma month_alts_range (l r : list ascii) (m : Z) :
  (m, r) ∈ month_alts l -> 1 <= m <= 12.
Proof.
  unfold month_alts. rewrite !elem_of_app.
  intros [H|[H|H]];
    [apply two_digits_range in H|apply two_digits_range in H|apply one_digit_range in H];
    lia.
Qed.

Lemma year_match_range (l r : list ascii) (y : Z) :
  year_match l = Some (y, r) -> 0 <= y <= 9999.
Proof.
  unfold year_match. destruct l as [|a [|b [|c [|d l]]]]; try done.
  destruct (Py.digit_of a) eqn:Ea; [|done].
  destruct (Py.digit_of b) eqn:Eb; [|done].
  destruct (Py.digit_of c) eqn:Ec; [|done].
  destruct (Py.digit_of d) eqn:Ed; [|done].
  intros [= <- _].
  apply PyFacts.digit_of_range in Ea, Eb, Ec, Ed. lia.
Qed.

(** What [strptime] answers is midnight of a day of the calendar. *)
Lemma strptime_mdY_sound (s : string) (d : datetime) :
  strptime_mdY s = Some d ->
  1 <= year d <= 9999 /\ 1 <= month d <= 12 /\
  1 <= day d <= days_in_month (year d) (month d) /\
  hour d = 0 /\ minute d = 0 /\ second d = 0 /\ microsecond d = 0.
Proof.
  unfold strptime_mdY.
  destruct (match_mdY (list_ascii_of_string s)) as [[[[m dd] y] r]|] eqn:E; [|done].
  destruct r; [|done].
  destruct (_ && _) eqn:Ev; [|done]. intros [= <-]. simpl.
  apply andb_true_iff in Ev as [Ev Hd]. apply andb_true_iff in Ev as [Hy Hd1].
  unfold match_mdY in E.
  apply first_match_Some in E as ([m' r1] & Hm & E).
  destruct (literal "/" r1) as [r2|]; [|done]. simpl in E.
  apply first_match_Some in E as ([d' r3] & _ & E).
  destruct (literal "/" r3) as [r4|]; [|done]. simpl in E.
  destruct (year_match r4) as [[y' r5]|] eqn:Ey; [|done]. simpl in E.
  injection E as -> -> -> ->.
  apply month_alts_range in Hm. apply year_match_range in Ey. lia.
Qed.

(** The first number of the text is the month, the second the day. *)
Example strptime_month_first :
  strptime_mdY "05/10/2021" = Some (mk_datetime 2021 5 10 0 0 0 0) /\
  strptime_mdY "5/1/2021" = Some (mk_datetime 2021 5 1 0 0 0 0) /\
  strptime_mdY "02/29/2020" = Some (mk_datetime 2020 2 29 0 0 0 0) /\
  strptime_mdY "13/01/2021" = None /\
  strptime_mdY "02/29/2021" = None /\
  strptime_mdY "2021-05-10" = None /\
  strptime_mdY "05/10/2021 " = None.
Proof. repeat split. Qed.

End StrptimeFacts.

(** C3. The last used date of a row follows an ordered decision table. When
    the last used field is empty: a status that contains [In Use] gives the
    current time, whatever the installation date; otherwise a non-empty
    installation date gives that date read as month/day/year (or the
    [ValueError] of a text that does not read so); otherwise the result is
    the start of time, 1970-01-01 00:00:00, exactly. A non-empty last used
    field is read as month/day/year. The date resolved so is the one an
    accepted record carries. *)
Theorem last_used_decision_table (now_ : datetime) (row : RawRow) (last : string) :
  row !! UstToken.LAST_USED_DATE = Some last ->
  (last = "" ->
   forall st, row !! UstToken.STATUS = Some st ->
     ((exists pre post, st = String.append pre (String.append "In Use" post)) ->
      resolve_last_used now_ row = Ok now_) /\
     (~ (exists pre post, st = String.append pre (String.append "In Use" post)) ->
      forall inst, row !! UstToken.INSTALLATION_DATE = Some inst ->
        (inst <> "" ->
         resolve_last_used now_ row = value_or_raise (Strptime.strptime_mdY inst)) /\
        (inst = "" ->
         resolve_last_used now_ row = Ok (mk_datetime 1970 1 1 0 0 0 0)))) /\
  (last <> "" ->
   resolve_last_used now_ row = value_or_raise (Strptime.strptime_mdY last)) /\
  (forall ext tank,
     decode_row ext now_ row = Ok (Accepted tank) ->
     resolve_last_used now_ row = Ok (last_used_date tank)).
Proof.
  intros Hlast. apply getitem_Ok in Hlast.
  split; [|split].
  - intros -> st Hst. apply getitem_Ok in Hst.
    unfold resolve_last_used. rewrite Hlast. simpl. rewrite Hst. simpl.
    rewrite <- PyFacts.re_search_spec. split.
    + by intros ->.
    + intros Huse%not_true_is_false inst Hinst. apply getitem_Ok in Hinst.
      rewrite Huse, Hinst. simpl. split.
      * intros Hne%PyFacts.str_truthy_true. by rewrite Hne.
      * by intros ->.
  - intros Hne. unfold resolve_last_used. rewrite Hlast. simpl.
    destruct (String.eqb_spec last ""); [done|].
    apply PyFacts.str_truthy_true in Hne. by rewrite Hne.
  - intros ext tank H. exact (acc_last_used _ _ _ _ (decode_row_accepted_inv _ _ _ _ H)).
Qed.

Lemma last_used_decision_table_witness :
  resolve_last_used (mk_datetime 2022 11 5 10 30 0 250000)
    (Sample.row "Avon" "06001" "Currently In Use" "1000" "Gasoline"
                "" "01/02/1990" "41.75" "-72.5")
  = Ok (mk_datetime 2022 11 5 10 30 0 250000).
Proof.
  destruct (last_used_decision_table (mk_datetime 2022 11 5 10 30 0 250000)
      (Sample.row "Avon" "06001" "Currently In Use" "1000" "Gasoline"
                  "" "01/02/1990" "41.75" "-72.5") "" eq_refl) as [H _].
  apply (H eq_refl "Currently In Use" eq_refl).
  by exists "Currently ", "".
Defined.

(** C5, as stated, fails. The capacity field reads [-500]; the row is
    accepted and its record carries the capacity -500. *)
Lemma negative_capacity_is_accepted :
  exists tank,
    decode_row Sample.ext (now Sample.ext 1)
      (Sample.row "Avon" "06001" "Permanently Closed" "-500" "Gasoline"
                  "05/10/2021" "" "41.75" "-72.5") = Ok (Accepted tank) /\
    estimated_total_capacity tank = -500.
Proof. eexists. split; reflexivity. Qed.

(** C5, amended. The estimated total capacity of a constructed record is an
    integer, the one the capacity field denotes once trimmed, with its sign;
    it is non-negative whenever the trimmed field does not start with a
    minus sign. *)
Theorem accepted_capacity_is_the_parsed_integer
    (ext : Externals) (now_ : datetime) (row : RawRow) (tank : TankPoint) :
  decode_row ext now_ row = Ok (Accepted tank) ->
  exists c,
    row !! UstToken.ESTIMATED_TOTAL_CAPACITY = Some c /\
    Py.int (Py.strip c) = Some (estimated_total_capacity tank) /\
    (Py.startswith "-" (Py.strip c) = false -> 0 <= estimated_total_capacity tank).
Proof.
  intros H.
  destruct (acc_capacity _ _ _ _ (decode_row_accepted_inv _ _ _ _ H)) as (c & Hc & Hint).
  exists c. split; [done|]. split; [done|].
  intros Hsign. destruct (Z.lt_ge_cases (estimated_total_capacity tank) 0) as [Hneg|]; [|done].
  pose proof (PyFacts.int_negative _ _ Hint Hneg) as Hs.
  rewrite PyFacts.strip_idemp in Hs. congruence.
Qed.

Lemma accepted_capacity_is_the_parsed_integer_witness :
  exists c,
    Sample.plain !! UstToken.ESTIMATED_TOTAL_CAPACITY = Some c /\
    Py.int (Py.strip c) = Some 1000 /\
    (Py.startswith "-" (Py.strip c) = false -> 0 <= 1000).
Proof.
  apply (accepted_capacity_is_the_parsed_integer Sample.ext (now Sample.ext 1) Sample.plain
           (mk_TankPoint "Hartford" "Removed from Ground" "Fiberglass" "Ball Float Valve"
              "Spill Bucket" "Permanently Closed" "Gasoline" 1000 "89e7"
              41.75%float (-72.5)%float (mk_datetime 2021 5 10 0 0 0 0))).
  reflexivity.
Defined.

(** ** The point of a record *)

(** Looks a key up in a chain of insertions with distinct literal keys. *)
Ltac lookup_inserted :=
  repeat (rewrite lookup_insert_ne by discriminate); apply lookup_insert_eq.

(** C8. The point built from a record is a function of the record alone: it
    is named [fuel_tanks], its tags are exactly city, closure_type,
    construction_type, spill_protection, overfill_protection,
    substance_stored and s2_cell_id with the texts of the record, its fields
    are exactly the integer estimated_total_capacity and the floats lat and
    lon, and its time is the last used date of the record, given with
    precision of a second. The writing loop issues one write call per
    record, in order, with the point of that record. *)
Theorem tank_point_shape (tank : TankPoint) :
  let p := tank_point "fuel_tanks" tank in
  p_name p = "fuel_tanks" /\
  dom (p_tags p) =
    ({[ "city"; "closure_type"; "construction_type"; "spill_protection";
        "overfill_protection"; "substance_stored"; "s2_cell_id" ]} : gset string) /\
  p_tags p !! "city" = Some (city tank) /\
  p_tags p !! "closure_type" = Some (closure_type tank) /\
  p_tags p !! "construction_type" = Some (construction_type tank) /\
  p_tags p !! "spill_protection" = Some (spill_protection tank) /\
  p_tags p !! "overfill_protection" = Some (overfill_protection tank) /\
  p_tags p !! "substance_stored" = Some (substance_stored tank) /\
  p_tags p !! "s2_cell_id" = Some (s2_cell_id_token tank) /\
  dom (p_fields p) = ({[ "estimated_total_capacity"; "lat"; "lon" ]} : gset string) /\
  p_fields p !! "estimated_total_capacity" = Some (IntField (estimated_total_capacity tank)) /\
  p_fields p !! "lat" = Some (FloatField (lat tank)) /\
  p_fields p !! "lon" = Some (FloatField (lon tank)) /\
  p_time p = Some (last_used_date tank) /\
  p_write_precision p = WritePrecision.S /\
  forall bucket org l n,
    write_all bucket org "fuel_tanks" l n =
      (map (fun t => WriteCall bucket org (tank_point "fuel_tanks" t)) l, (n + length l)%nat).
Proof.
  cbv zeta.
  assert (Ht : p_tags (tank_point "fuel_tanks" tank) =
    <["s2_cell_id" := s2_cell_id_token tank]>
      (<["substance_stored" := substance_stored tank]>
      (<["overfill_protection" := overfill_protection tank]>
      (<["spill_protection" := spill_protection tank]>
      (<["construction_type" := construction_type tank]>
      (<["closure_type" := closure_type tank]>
      (<["city" := city tank]> ∅))))))) by reflexivity.
  assert (Hf : p_fields (tank_point "fuel_tanks" tank) =
    <["lon" := FloatField (lon tank)]>
      (<["lat" := FloatField (lat tank)]>
      (<["estimated_total_capacity" := IntField (estimated_total_capacity tank)]> ∅)))
    by reflexivity.
  rewrite Ht, Hf.
  split; [reflexivity|].
  split; [rewrite !dom_insert_L, dom_empty_L; set_solver|].
  do 7 (split; [lookup_inserted|]).
  split; [rewrite !dom_insert_L, dom_empty_L; set_solver|].
  do 3 (split; [lookup_inserted|]).
  split; [reflexivity|]. split; [reflexivity|].
  intros. apply write_all_spec.
Qed.

(** ** The decoder: location *)

Section LocationFacts.
Context (ext : Externals).

(** A row is never accepted without two coordinates that are there and
    truthy. *)
Lemma decode_row_needs_both (now_ : datetime) (row : RawRow)
    (la lo : option float) (tank : TankPoint) :
  resolve_location ext row = Ok (la, lo) ->
  Py.both_truthy la lo = false ->
  decode_row ext now_ row <> Ok (Accepted tank).
Proof.
  intros Hloc Hboth H. apply decode_row_accepted_inv in H as [_ _ _ Hl Hx Hy _ _ _ _ _ _ _ _].
  rewrite Hloc in Hl. injection Hl as -> ->.
  simpl in Hboth. by rewrite Hx, Hy in Hboth.
Qed.

(** The rule the loop body applies to a row of 27 columns whose date and
    capacity parse: the row is ignored exactly when a coordinate is
    missing or is a zero. *)
Lemma decode_row_ignored_iff (now_ : datetime) (row : RawRow)
    (d : datetime) (z : Z) (la lo : option float) :
  length row = 27%nat ->
  row !! UstToken.ID <> Some HEADER_ID ->
  resolve_last_used now_ row = Ok d ->
  Py.int (Py.strip (column row UstToken.ESTIMATED_TOTAL_CAPACITY)) = Some z ->
  resolve_location ext row = Ok (la, lo) ->
  decode_row ext now_ row = Ok Ignored <-> Py.both_truthy la lo = false.
Proof.
  intros Hlen Hhd Hlast Hcap Hloc.
  rewrite (decode_row_well_formed ext now_ row d z (la, lo)) by done.
  destruct la as [x|], lo as [y|]; simpl; try done.
  destruct (Py.float_truthy x && Py.float_truthy y); [|done].
  split; [|done]. by destruct (lat_lon_to_token ext x y S2_LEVEL).
Qed.

(** Only the columns of the two coordinates can tell two rows apart that
    resolve to the same location. *)
Lemma decode_row_blank_coordinates (now_ : datetime) (row : RawRow) :
  resolve_location ext (<[UstToken.LATITUDE := ""]> (<[UstToken.LONGITUDE := ""]> row))
    = resolve_location ext row ->
  decode_row ext now_ (<[UstToken.LATITUDE := ""]> (<[UstToken.LONGITUDE := ""]> row))
    = decode_row ext now_ row.
Proof.
  intros Hloc. unfold decode_row. rewrite Hloc. unfold resolve_last_used.
  by rewrite !getitem_insert_ne by done.
Qed.

End LocationFacts.

(** C9. A record is built only from two coordinates that were both
    resolved, by the direct branch or by the postal code branch, and that
    are both truthy: no record carries a partial location. On the postal
    code branch a lookup result that lacks its latitude or its longitude
    never gives a record, and the row is ignored when it has its 27
    columns, is not the header row, and its date and capacity parse. *)
Theorem accepted_record_has_both_coordinates
    (ext : Externals) (now_ : datetime) (row : RawRow) :
  (forall tank,
     decode_row ext now_ row = Ok (Accepted tank) ->
     resolve_location ext row = Ok (Some (lat tank), Some (lon tank)) /\
     Py.float_truthy (lat tank) = true /\ Py.float_truthy (lon tank) = true) /\
  (forall la zip sr_data,
     row !! UstToken.LATITUDE = Some la ->
     la = "" \/ row !! UstToken.LONGITUDE = Some "" ->
     row !! UstToken.ZIP = Some zip -> zip <> "" ->
     by_zipcode ext zip = Some sr_data ->
     SimpleZipcode.lat sr_data = None \/ SimpleZipcode.lng sr_data = None ->
     (forall tank, decode_row ext now_ row <> Ok (Accepted tank)) /\
     (length row = 27%nat ->
      row !! UstToken.ID <> Some "UST Site ID Number" ->
      (exists d, resolve_last_used now_ row = Ok d) ->
      (exists z, Py.int (Py.strip (column row UstToken.ESTIMATED_TOTAL_CAPACITY)) = Some z) ->
      decode_row ext now_ row = Ok Ignored)).
Proof.
  split.
  - intros tank H. apply decode_row_accepted_inv in H as [_ _ _ Hl Hx Hy _ _ _ _ _ _ _ _].
    done.
  - intros la zip sr_data Hla Hdirect Hzip Hne Hsr Hmiss.
    assert (Hloc : resolve_location ext row
                   = Ok (SimpleZipcode.lat sr_data, SimpleZipcode.lng sr_data)).
    { rewrite (resolve_location_fallback ext row la Hla Hdirect). unfold zip_branch.
      apply getitem_Ok in Hzip. rewrite Hzip. simpl.
      apply PyFacts.str_truthy_true in Hne. by rewrite Hne, Hsr. }
    assert (Hboth : Py.both_truthy (SimpleZipcode.lat sr_data) (SimpleZipcode.lng sr_data)
                    = false).
    { destruct Hmiss as [-> | ->]; [done|]. by destruct (SimpleZipcode.lat sr_data). }
    split.
    + intros tank. by eapply decode_row_needs_both.
    + intros Hlen Hhd [d Hd] [z Hz].
      by apply (decode_row_ignored_iff ext now_ row d z _ _ Hlen Hhd Hd Hz Hloc).
Qed.

Lemma accepted_record_has_both_coordinates_witness :
  decode_row Sample.ext (now Sample.ext 1)
    (Sample.row "Avon" "06102" "Permanently Closed" "550" "Heating Oil"
                "05/10/2021" "" "" "") = Ok Ignored.
Proof.
  pose proof (accepted_record_has_both_coordinates Sample.ext (now Sample.ext 1)
    (Sample.row "Avon" "06102" "Permanently Closed" "550" "Heating Oil"
                "05/10/2021" "" "" "")) as [_ H].
  specialize (H "" "06102" (SimpleZipcode.mk (Some 41.5%float) None)
                eq_refl (or_introl eq_refl) eq_refl).
  destruct H as [_ H].
  - discriminate.
  - reflexivity.
  - right. reflexivity.
  - apply H.
    + reflexivity.
    + discriminate.
    + exists (mk_datetime 2021 5 10 0 0 0 0). reflexivity.
    + exists 550. reflexivity.
Defined.

(** C10. When exactly one of the two coordinate fields is non-empty, the
    direct branch is not taken and the location is what the postal code
    branch gives. The coordinate that is there is not used: the row is
    decoded as the same row with both coordinate fields blank, and the
    result does not depend on the float parser. When the postal code branch
    resolves no coordinates, the row is not accepted, and it is rejected
    (counted as ignored) when it has its 27 columns, is not the header row,
    and its date and capacity parse. *)
Theorem lone_coordinate_is_not_used
    (ext : Externals) (now_ : datetime) (row : RawRow) (la lo : string) :
  row !! UstToken.LATITUDE = Some la ->
  row !! UstToken.LONGITUDE = Some lo ->
  (la = "" /\ lo <> "") \/ (la <> "" /\ lo = "") ->
  resolve_location ext row = zip_branch ext row /\
  decode_row ext now_ row =
    decode_row ext now_ (<[UstToken.LATITUDE := ""]> (<[UstToken.LONGITUDE := ""]> row)) /\
  (forall parse : string -> option float,
     decode_row (mk_Externals parse (by_zipcode ext) (lat_lon_to_token ext)
                              (now ext) (utcnow ext)) now_ row
     = decode_row ext now_ row) /\
  (forall la' lo',
     zip_branch ext row = Ok (la', lo') -> la' = None \/ lo' = None ->
     (forall tank, decode_row ext now_ row <> Ok (Accepted tank)) /\
     (length row = 27%nat ->
      row !! UstToken.ID <> Some "UST Site ID Number" ->
      (exists d, resolve_last_used now_ row = Ok d) ->
      (exists z, Py.int (Py.strip (column row UstToken.ESTIMATED_TOTAL_CAPACITY)) = Some z) ->
      decode_row ext now_ row = Ok Ignored)).
Proof.
  intros Hla Hlo Hone.
  assert (Hfall : forall e : Externals, resolve_location e row = zip_branch e row).
  { intros e. apply resolve_location_fallback with la; [done|].
    destruct Hone as [[-> _]|[_ ->]]; [by left|by right]. }
  split; [apply Hfall|]. split; [|split].
  - symmetry. apply decode_row_blank_coordinates.
    rewrite Hfall.
    rewrite (resolve_location_fallback ext _ "").
    + unfold zip_branch. by rewrite !getitem_insert_ne by done.
    + apply list_lookup_insert_eq. rewrite length_insert.
      by apply lookup_lt_Some in Hla.
    + by left.
  - intros parse. unfold decode_row. by rewrite !Hfall.
  - intros la' lo' Hz Hnone.
    assert (Hloc : resolve_location ext row = Ok (la', lo')) by (by rewrite Hfall).
    assert (Hboth : Py.both_truthy la' lo' = false).
    { destruct Hnone as [-> | ->]; [done|]. by destruct la'. }
    split.
    + intros tank. by apply decode_row_needs_both with la' lo'.
    + intros Hlen Hhd [d Hd] [z Hcap].
      by apply (decode_row_ignored_iff ext now_ row d z la' lo' Hlen Hhd Hd Hcap Hloc).
Qed.

Lemma lone_coordinate_is_not_used_witness :
  resolve_location Sample.ext
    (Sample.row "Avon" "06101" "Permanently Closed" "550" "Heating Oil"
                "05/10/2021" "" "not a number" "")
  = Ok (Some 41.5%float, Some (-72.25)%float) /\
  decode_row Sample.ext (now Sample.ext 1)
    (Sample.row "Avon" "" "Permanently Closed" "550" "Heating Oil"
                "05/10/2021" "" "not a number" "")
  = Ok Ignored.
Proof.
  split.
  - destruct (lone_coordinate_is_not_used Sample.ext (now Sample.ext 1)
      (Sample.row "Avon" "06101" "Permanently Closed" "550" "Heating Oil"
                  "05/10/2021" "" "not a number" "") "not a number" "") as [H _].
    + reflexivity.
    + reflexivity.
    + right. split; [discriminate|reflexivity].
    + rewrite H. reflexivity.
  - destruct (lone_coordinate_is_not_used Sample.ext (now Sample.ext 1)
      (Sample.row "Avon" "" "Permanently Closed" "550" "Heating Oil"
                  "05/10/2021" "" "not a number" "") "not a number" "")
      as (_ & _ & _ & H).
    + reflexivity.
    + reflexivity.
    + right. split; [discriminate|reflexivity].
    + destruct (H None None eq_refl (or_introl eq_refl)) as [_ Hign].
      apply Hign.
      * reflexivity.
      * discriminate.
      * exists (mk_datetime 2021 5 10 0 0 0 0). reflexivity.
      * exists 550. reflexivity.
Defined.

(** X13. The part of the direct branch that the code does as said: on a row of
    27 columns, not the header row, whose date and capacity parse, two
    non-empty coordinate fields that the float parser reads as two truthy
    floats give a record with exactly these coordinates, once the cell
    library has answered. *)
Lemma direct_coordinates_are_accepted
    (ext : Externals) (now_ : datetime) (row : RawRow)
    (d : datetime) (z : Z) (la lo token : string) (x y : float) :
  length row = 27%nat ->
  row !! UstToken.ID <> Some HEADER_ID ->
  resolve_last_used now_ row = Ok d ->
  Py.int (Py.strip (column row UstToken.ESTIMATED_TOTAL_CAPACITY)) = Some z ->
  row !! UstToken.LATITUDE = Some la -> row !! UstToken.LONGITUDE = Some lo ->
  la <> "" -> lo <> "" ->
  py_float ext la = Some x -> py_float ext lo = Some y ->
  Py.float_truthy x = true -> Py.float_truthy y = true ->
  lat_lon_to_token ext x y S2_LEVEL = Some token ->
  exists tank,
    decode_row ext now_ row = Ok (Accepted tank) /\ lat tank = x /\ lon tank = y.
Proof.
  intros Hlen Hhd Hlast Hcap Hla Hlo Ha Ho Hx Hy Tx Ty Htok.
  rewrite (decode_row_well_formed ext now_ row d z (Some x, Some y)); try done.
  - rewrite Tx, Ty, Htok. simpl. by eexists.
  - rewrite (resolve_location_direct ext row la lo) by done. by rewrite Hx, Hy.
Qed.

(** C2: the code departs from the claim on a zero coordinate. The row
    [Sample.zero_latitude] has both coordinate fields non-empty, [0.0] and
    [-72.5], and every other field parses. The direct branch resolves both
    coordinates, but [0.0] is falsy, so the test [lat and lon] fails and the
    row is ignored instead of accepted. *)
Theorem zero_latitude_row_is_ignored (ext : Externals) (now_ : datetime) (y : float) :
  py_float ext "0.0" = Some 0%float ->
  py_float ext "-72.5" = Some y ->
  resolve_location ext Sample.zero_latitude = Ok (Some 0%float, Some y) /\
  decode_row ext now_ Sample.zero_latitude = Ok Ignored.
Proof.
  intros Hx Hy.
  assert (Hloc : resolve_location ext Sample.zero_latitude = Ok (Some 0%float, Some y)).
  { rewrite (resolve_location_direct ext _ "0.0" "-72.5") by done. by rewrite Hx, Hy. }
  split; [done|].
  apply (decode_row_ignored_iff ext now_ Sample.zero_latitude
           (mk_datetime 2021 5 10 0 0 0 0) 1000 (Some 0%float) (Some y));
    [reflexivity|discriminate|reflexivity|reflexivity|exact Hloc|reflexivity].
Qed.

Lemma zero_latitude_row_is_ignored_witness :
  resolve_location Sample.ext Sample.zero_latitude
    = Ok (Some 0%float, Some (-72.5)%float) /\
  decode_row Sample.ext (now Sample.ext 1) Sample.zero_latitude = Ok Ignored.
Proof.
  apply (zero_latitude_row_is_ignored Sample.ext (now Sample.ext 1) (-72.5)%float);
    reflexivity.
Defined.

(** ** Worked examples *)

(** Records of the dates T, T and T-1 given in the orders (T, T-1, T) and
    (T-1, T, T): the two records of date T come first, in the order they
    were given. *)
Example stable_order_on_ties :
  let T := mk_datetime 2021 5 10 0 0 0 0 in
  let T' := mk_datetime 2021 5 9 0 0 0 0 in
  map city (sort_desc last_used_date
              [Sample.tank_at "first" T; Sample.tank_at "old" T'; Sample.tank_at "second" T])
    = ["first"; "second"; "old"] /\
  map city (sort_desc last_used_date
              [Sample.tank_at "old" T'; Sample.tank_at "first" T; Sample.tank_at "second" T])
    = ["first"; "second"; "old"].
Proof. split; reflexivity. Qed.

(** The header test compares texts exactly: another spelling of the header
    makes a data row, whose capacity column then fails to parse. *)
Example header_test_is_exact :
  decode_row Sample.ext (now Sample.ext 0) Sample.header = Ok Skipped /\
  decode_row Sample.ext (now Sample.ext 0)
    (<[UstToken.ID := "ust site id number"]> Sample.header) = Raise ValueError.
Proof. split; reflexivity. Qed.

(** A whole run over the header row, an accepted row of the year 1990, an
    ignored row and an accepted row of the year 2021: one delete call, the
    two write calls with the most recent date first, and the flush. *)
Example sample_run :
  let rows :=
    [Sample.header;
     Sample.row "Avon" "06101" "Permanently Closed" "550" "Heating Oil" "" "01/02/1990" "" "";
     Sample.row "Avon" "" "Permanently Closed" "550" "Heating Oil" "" "" "" "";
     Sample.plain] in
  let run := import_data Sample.ext "org" "bucket" rows true in
  run.2 = Completed 2 1 /\
  map is_delete run.1 = [true; false; false; false] /\
  map is_write run.1 = [false; true; true; false] /\
  omap (fun c => if c is WriteCall _ _ p then p_time p else None) run.1
    = [mk_datetime 2021 5 10 0 0 0 0; mk_datetime 1990 1 2 0 0 0 0].
Proof. repeat split; vm_compute; reflexivity. Qed.

(** * Further properties of the importer *)

(** ** Counting the lines of the data file *)

Module CountLinesFacts.
Import CountLines.

Lemma count_app (b : Byte.byte) (l1 l2 : list Byte.byte) :
  count b (l1 ++ l2) = (count b l1 + count b l2)%nat.
Proof. induction l1 as [|c l1 IH]; simpl; [done|]. rewrite IH. lia. Qed.

Lemma count_concat (b : Byte.byte) (bufs : list (list Byte.byte)) :
  sum_list (count b <$> bufs) = count b (concat bufs).
Proof.
  induction bufs as [|buf bufs IH]; [done|].
  rewrite fmap_cons. change (sum_list (?x :: ?l)) with (x + sum_list l)%nat.
  rewrite IH. simpl. by rewrite count_app.
Qed.

(** With a chunk size that is not zero, the chunks are non-empty, of at most
    [n] bytes, and make up the file. *)
Lemma buffer_gen_chunks (fuel n : nat) (data : list Byte.byte) (bufs : list (list Byte.byte)) :
  (0 < n)%nat ->
  buffer_gen fuel n data = Some bufs ->
  concat bufs = data /\
  Forall (fun buf => bytes_truthy buf = true /\ (length buf <= n)%nat) bufs.
Proof.
  intros Hn. revert data bufs.
  induction fuel as [|fuel IH]; intros data bufs; simpl; [done|].
  destruct (bytes_truthy (take n data)) eqn:E.
  - destruct (buffer_gen fuel n (drop n data)) as [bufs'|] eqn:Eg; [|done].
    intros [= <-]. destruct (IH _ _ Eg) as [Hc Hall]. split.
    + simpl. rewrite Hc. apply take_drop.
    + constructor; [|done]. split; [done|]. rewrite length_take. lia.
  - intros [= <-]. split; [|constructor]. simpl.
    destruct data as [|c data]; [done|]. destruct n; [lia|done].
Qed.

Lemma buffer_gen_enough (fuel n : nat) (data : list Byte.byte) :
  (0 < n)%nat -> (length data < fuel)%nat -> is_Some (buffer_gen fuel n data).
Proof.
  intros Hn. revert data. induction fuel as [|fuel IH]; intros data Hlen; [lia|].
  simpl. destruct (bytes_truthy (take n data)) eqn:E; [|by eexists].
  destruct (IH (drop n data)) as [bufs Hb].
  - rewrite length_drop. destruct data; [by destruct n|]. simpl in *. lia.
  - rewrite Hb. by eexists.
Qed.

Lemma filter_all_truthy (bufs : list (list Byte.byte)) :
  Forall (fun buf => bytes_truthy buf = true) bufs -> List.filter bytes_truthy bufs = bufs.
Proof.
  induction 1 as [|buf bufs Hb _ IH]; simpl; [done|]. by rewrite Hb, IH.
Qed.

End CountLinesFacts.

(** X1. [count_lines] returns the number of newline bytes of the file,
    whatever the size of the chunks it reads (any size but zero) and
    whatever bound above the length of the file is put on the number of
    reads: reading in chunks neither loses nor doubles a byte. *)
Theorem count_lines_counts_newline_bytes (data : list Byte.byte) :
  CountLines.count_lines data = Some (CountLines.count CountLines.newline data) /\
  forall fuel n,
    (0 < n)%nat -> (length data < fuel)%nat ->
    CountLines.count_lines_with fuel n data
      = Some (CountLines.count CountLines.newline data).
Proof.
  assert (H : forall fuel n,
    (0 < n)%nat -> (length data < fuel)%nat ->
    CountLines.count_lines_with fuel n data
      = Some (CountLines.count CountLines.newline data)).
  { intros fuel n Hn Hfuel. unfold CountLines.count_lines_with.
    destruct (CountLinesFacts.buffer_gen_enough fuel n data Hn Hfuel) as [bufs Hb].
    rewrite Hb. simpl.
    destruct (CountLinesFacts.buffer_gen_chunks _ _ _ _ Hn Hb) as [Hc Hall].
    rewrite CountLinesFacts.filter_all_truthy.
    - by rewrite CountLinesFacts.count_concat, Hc.
    - eapply Forall_impl; [exact Hall|]. by intros buf [? _]. }
  split; [|exact H].
  apply H; [unfold CountLines.CHUNK; lia|lia].
Qed.

(** ** The parsing loop in one piece *)

Section LoopFacts.
Context (ext : Externals).

Lemma parse_rows_in_order (k : nat) (rows : list RawRow) (st st' : loop_state)
    (r : option exn) :
  parse_rows ext k rows st = (st', r) ->
  exists done_ rest,
    rows = done_ ++ rest /\
    tanks st' = tanks st
      ++ omap accepted_tank (imap (fun i => outcome_at ext (k + i)) done_) /\
    (ignored st' = ignored st
      + length (List.filter is_ignored (imap (fun i => outcome_at ext (k + i)) done_)))%nat /\
    Forall (fun o => exists d, o = Ok d) (imap (fun i => outcome_at ext (k + i)) done_) /\
    match r with
    | None => rest = []
    | Some e => exists bad rest',
        rest = bad :: rest' /\ outcome_at ext (k + length done_) bad = Raise e
    end.
Proof.
  revert k st. induction rows as [|row rows IH]; intros k st H; simpl in H.
  - injection H as <- <-. exists [], []. simpl.
    rewrite app_nil_r. repeat split; [lia|constructor].
  - destruct (decode_row ext (now ext k) row) as [d|e] eqn:Ed.
    + apply IH in H as (done_ & rest & -> & Ht & Hi & Hok & Hr).
      exists (row :: done_), rest. split; [done|].
      rewrite imap_cons.
      rewrite (imap_ext _ (fun i => outcome_at ext (Datatypes.S k + i)) done_)
        by (intros; simpl; f_equal; lia).
      unfold outcome_at at 1 3 5. rewrite Nat.add_0_r, Ed.
      split; [|split; [|split]].
      * rewrite Ht. destruct d; simpl; try done. by rewrite <- app_assoc.
      * rewrite Hi. destruct d; simpl; lia.
      * constructor; [by eexists|done].
      * destruct r as [e|]; [|done].
        destruct Hr as (bad & rest' & -> & Hbad). exists bad, rest'.
        split; [done|].
        by replace (k + length (row :: done_))%nat
          with (Datatypes.S k + length done_)%nat by (simpl; lia).
    + injection H as <- <-. exists [], (row :: rows). simpl.
      rewrite app_nil_r. repeat split; [lia|constructor|].
      exists row, rows. split; [done|]. unfold outcome_at. by rewrite Nat.add_0_r.
Qed.

End LoopFacts.

(** X2. The parsing loop is a filter over the file: when it ends normally,
    the accepted records are the records of the accepted rows in the order
    of the file, the number of ignored rows is the number of rows the loop
    body ignores, and no row has raised. When it stops on an exception, the
    same holds for the rows before the raising row. *)
Theorem parsing_loop_keeps_file_order
    (ext : Externals) (rows : list RawRow) (st : loop_state) (r : option exn) :
  parse_rows ext 0 rows loop_init = (st, r) ->
  exists done_ rest,
    rows = done_ ++ rest /\
    tanks st = accepted_in_order ext done_ /\
    ignored st = length (List.filter is_ignored (imap (outcome_at ext) done_)) /\
    Forall (fun o => exists d, o = Ok d) (imap (outcome_at ext) done_) /\
    match r with
    | None => rest = []
    | Some e => exists bad rest',
        rest = bad :: rest' /\ outcome_at ext (length done_) bad = Raise e
    end.
Proof.
  intros H. apply parse_rows_in_order in H as (done_ & rest & E & Ht & Hi & Hok & Hr).
  exists done_, rest. repeat split; done.
Qed.

Lemma parsing_loop_keeps_file_order_witness :
  exists done_ rest,
    [Sample.header; Sample.plain; Sample.zero_latitude] = done_ ++ rest /\
    [Sample.plain_tank] = accepted_in_order Sample.ext done_ /\
    1%nat = length (List.filter is_ignored (imap (outcome_at Sample.ext) done_)) /\
    Forall (fun o => exists d, o = Ok d) (imap (outcome_at Sample.ext) done_) /\
    rest = [].
Proof.
  apply (parsing_loop_keeps_file_order Sample.ext
           [Sample.header; Sample.plain; Sample.zero_latitude]
           (mk_loop_state [Sample.plain_tank] 1) None).
  reflexivity.
Defined.

(** ** The calls of a run *)

Section RunFacts.
Context (ext : Externals).

Lemma written_points_app (l1 l2 : list store_call) :
  written_points (l1 ++ l2) = written_points l1 ++ written_points l2.
Proof. apply omap_app. Qed.

Lemma written_points_truncation (org bucket : string) (truncate : bool) :
  written_points (truncation ext org bucket truncate) = [].
Proof. by destruct truncate. Qed.

Lemma written_points_writes (bucket org m : string) (l : list TankPoint) :
  written_points (map (fun t => WriteCall bucket org (tank_point m t)) l)
  = tank_point m <$> l.
Proof.
  induction l as [|t l IH]; [done|].
  unfold written_points in *. csimpl. by rewrite IH.
Qed.

(** A run that completes has decoded every row, has accepted at least one,
    and has made its calls in this order. *)
Lemma completed_run_inv (org bucket : string) (rows : list RawRow) (truncate : bool)
    (calls : list store_call) (count ign : nat) :
  import_data ext org bucket rows truncate = (calls, Completed count ign) ->
  exists st,
    parse_rows ext 0 rows loop_init = (st, None) /\ tanks st <> [] /\
    calls = truncation ext org bucket truncate
            ++ map (fun t => WriteCall bucket org (tank_point "fuel_tanks" t))
                   (sort_desc last_used_date (tanks st))
            ++ [FlushCall] /\
    count = length (tanks st) /\ ign = ignored st.
Proof.
  rewrite import_data_cases.
  destruct (parse_rows ext 0 rows loop_init) as [st [e|]]; [done|].
  destruct (decide (tanks st = [])); [done|].
  intros [= <- <- <-]. by exists st.
Qed.

Lemma completed_run_points (org bucket : string) (rows : list RawRow) (truncate : bool)
    (calls : list store_call) (count ign : nat) :
  import_data ext org bucket rows truncate = (calls, Completed count ign) ->
  written_points calls
  = tank_point "fuel_tanks" <$> sort_desc last_used_date (accepted_in_order ext rows).
Proof.
  intros (st & Hp & _ & -> & _)%completed_run_inv.
  apply parse_rows_in_order in Hp as (done_ & rest & E & Ht & _ & _ & ->).
  rewrite app_nil_r in E. subst done_.
  rewrite !written_points_app, written_points_truncation, written_points_writes.
  simpl. rewrite app_nil_r. by rewrite Ht.
Qed.

(** A run that aborts has made no call but the truncating one. *)
Lemma aborted_run_inv (org bucket : string) (rows : list RawRow) (truncate : bool)
    (calls : list store_call) (e : exn) :
  import_data ext org bucket rows truncate = (calls, Aborted e) ->
  calls = truncation ext org bucket truncate.
Proof.
  rewrite import_data_cases.
  destruct (parse_rows ext 0 rows loop_init) as [st [e'|]]; [by intros [= <- _]|].
  destruct (decide (tanks st = [])); [by intros [= <- _]|done].
Qed.

Lemma tank_point_time (m : string) (t : TankPoint) :
  p_time (tank_point m t) = Some (last_used_date t).
Proof. reflexivity. Qed.

Lemma accepted_in_order_elem (rows : list RawRow) (t : TankPoint) :
  t ∈ accepted_in_order ext rows ->
  exists i row, rows !! i = Some row /\ decode_row ext (now ext i) row = Ok (Accepted t).
Proof.
  unfold accepted_in_order. rewrite list_elem_of_omap.
  intros (o & Ho & Hacc). apply elem_of_lookup_imap_1 in Ho as (i & row & -> & Hrow).
  exists i, row. split; [done|]. unfold outcome_at in Hacc.
  destruct (decode_row ext (now ext i) row) as [[| |]|]; simpl in Hacc; try done.
  by injection Hacc as ->.
Qed.

End RunFacts.

Lemma filter_fmap_commute {A B} (f : A -> B) (P : B -> Prop) `{!forall b, Decision (P b)}
    (l : list A) :
  filter P (f <$> l) = f <$> filter (fun a => P (f a)) l.
Proof.
  induction l as [|a l IH]; [done|].
  rewrite fmap_cons, !filter_cons, IH. by destruct (decide (P (f a))).
Qed.

Lemma tank_point_lat_lon_token (t : TankPoint) :
  p_fields (tank_point "fuel_tanks" t) !! "lat" = Some (FloatField (lat t)) /\
  p_fields (tank_point "fuel_tanks" t) !! "lon" = Some (FloatField (lon t)) /\
  p_fields (tank_point "fuel_tanks" t) !! "estimated_total_capacity"
    = Some (IntField (estimated_total_capacity t)) /\
  p_tags (tank_point "fuel_tanks" t) !! "s2_cell_id" = Some (s2_cell_id_token t).
Proof.
  assert (Ht : p_tags (tank_point "fuel_tanks" t) =
    <["s2_cell_id" := s2_cell_id_token t]>
      (<["substance_stored" := substance_stored t]>
      (<["overfill_protection" := overfill_protection t]>
      (<["spill_protection" := spill_protection t]>
      (<["construction_type" := construction_type t]>
      (<["closure_type" := closure_type t]>
      (<["city" := city t]> ∅))))))) by reflexivity.
  assert (Hf : p_fields (tank_point "fuel_tanks" t) =
    <["lon" := FloatField (lon t)]>
      (<["lat" := FloatField (lat t)]>
      (<["estimated_total_capacity" := IntField (estimated_total_capacity t)]> ∅)))
    by reflexivity.
  rewrite Ht, Hf. repeat split; lookup_inserted.
Qed.

(** X3. In a run that completes, the points are written with their times
    in descending order: no point is written after a point of an earlier
    last used date. *)
Theorem writes_go_most_recent_first
    (ext : Externals) (org bucket : string) (rows : list RawRow) (truncate : bool)
    (calls : list store_call) (count ign : nat) :
  import_data ext org bucket rows truncate = (calls, Completed count ign) ->
  exists dates,
    p_time <$> written_points calls = Some <$> dates /\
    StronglySorted (fun a b => dt_leb b a = true) dates.
Proof.
  intros H. rewrite (completed_run_points ext _ _ _ _ _ _ _ H).
  exists (last_used_date <$> sort_desc last_used_date (accepted_in_order ext rows)).
  split.
  - rewrite <- !list_fmap_compose. by apply list_fmap_ext.
  - apply (StronglySorted_fmap _ (desc last_used_date)); [done|].
    apply sort_desc_strongly_sorted.
Qed.

Lemma writes_go_most_recent_first_witness :
  exists dates,
    p_time <$> written_points
      (import_data Sample.ext "org" "bucket"
         [Sample.header; Sample.by_postal_code; Sample.plain] true).1 = Some <$> dates /\
    StronglySorted (fun a b => dt_leb b a = true) dates.
Proof.
  apply (writes_go_most_recent_first Sample.ext "org" "bucket"
           [Sample.header; Sample.by_postal_code; Sample.plain] true _ 2 0).
  rewrite import_data_cases. reflexivity.
Defined.

(** X4. A run that completes writes the point of every accepted row exactly
    once: the points written are a rearrangement of the points of the
    accepted rows, their number is the count the run reports, and the points
    of one and the same last used date are written in the order of their
    rows in the file. *)
Theorem every_accepted_row_is_written_once
    (ext : Externals) (org bucket : string) (rows : list RawRow) (truncate : bool)
    (calls : list store_call) (count ign : nat) :
  import_data ext org bucket rows truncate = (calls, Completed count ign) ->
  written_points calls ≡ₚ tank_point "fuel_tanks" <$> accepted_in_order ext rows /\
  length (written_points calls) = count /\
  forall d : datetime,
    filter (fun p => p_time p = Some d) (written_points calls)
    = tank_point "fuel_tanks"
        <$> filter (fun t => last_used_date t = d) (accepted_in_order ext rows).
Proof.
  intros H. rewrite (completed_run_points ext _ _ _ _ _ _ _ H).
  split; [|split].
  - by rewrite sort_desc_perm.
  - apply completed_run_inv in H as (st & Hp & _ & _ & -> & _).
    apply parse_rows_in_order in Hp as (done_ & rest & E & Ht & _ & _ & ->).
    rewrite app_nil_r in E. subst done_. rewrite length_fmap.
    rewrite (Permutation_length (sort_desc_perm last_used_date _)).
    by rewrite Ht.
  - intros d. rewrite filter_fmap_commute. f_equal.
    transitivity (with_key last_used_date d
                    (sort_desc last_used_date (accepted_in_order ext rows))).
    + apply list_filter_iff. intros t. rewrite tank_point_time. split; congruence.
    + apply sort_desc_with_key.
Qed.

Lemma every_accepted_row_is_written_once_witness :
  length (written_points
            (import_data Sample.ext "org" "bucket"
               [Sample.header; Sample.by_postal_code; Sample.plain] true).1) = 2%nat.
Proof.
  apply (every_accepted_row_is_written_once Sample.ext "org" "bucket"
           [Sample.header; Sample.by_postal_code; Sample.plain] true _ 2 0).
  rewrite import_data_cases. reflexivity.
Defined.

(** X5. The calls of every run have one shape: the truncating delete call
    first when truncation is asked for and no delete call otherwise, then
    write calls only, all for the given bucket and organisation, then one
    flush call when the run completes. A run that aborts has made no write
    and no flush call; a run that completes has made at least one write
    call, as many as the count it reports. Asking for the truncation changes
    nothing but the first call. *)
Theorem store_calls_have_one_shape
    (ext : Externals) (org bucket : string) (rows : list RawRow) (truncate : bool) :
  (exists points,
     (import_data ext org bucket rows truncate).1 =
       (if truncate
        then [DeleteCall START_OF_TIME (utcnow ext) bucket org "fuel_tanks"]
        else [])
       ++ (WriteCall bucket org <$> points)
       ++ (if (import_data ext org bucket rows truncate).2 is Completed _ _
           then [FlushCall] else []) /\
     match (import_data ext org bucket rows truncate).2 with
     | Completed count _ => length points = count /\ (0 < count)%nat
     | Aborted _ => points = []
     end) /\
  (import_data ext org bucket rows true).2 = (import_data ext org bucket rows false).2 /\
  (import_data ext org bucket rows true).1 =
    DeleteCall START_OF_TIME (utcnow ext) bucket org "fuel_tanks"
    :: (import_data ext org bucket rows false).1.
Proof.
  rewrite !import_data_cases. unfold truncation.
  destruct (parse_rows ext 0 rows loop_init) as [st [e|]]; simpl.
  - split; [|done]. exists []. by rewrite app_nil_r.
  - destruct (decide (tanks st = [])) as [|Hne]; simpl.
    + split; [|done]. exists []. by rewrite app_nil_r.
    + split; [|done].
      exists (tank_point "fuel_tanks" <$> sort_desc last_used_date (tanks st)).
      split.
      * do 2 f_equal. rewrite <- list_fmap_compose. reflexivity.
      * rewrite length_fmap, (Permutation_length (sort_desc_perm last_used_date _)).
        split; [done|]. destruct (tanks st); [done|simpl; lia].
Qed.

(** X6. Every point a run writes comes from a row of the file that the
    decoder accepted, and is consistent in itself: its fields lat and lon
    are floats that are not zero, and its tag s2_cell_id is the token the
    cell library gives for these two floats at level 10. *)
Theorem written_points_are_consistent
    (ext : Externals) (org bucket : string) (rows : list RawRow) (truncate : bool)
    (p : Point) :
  p ∈ written_points (import_data ext org bucket rows truncate).1 ->
  (exists i row tank,
     rows !! i = Some row /\
     decode_row ext (now ext i) row = Ok (Accepted tank) /\
     p = tank_point "fuel_tanks" tank) /\
  (exists x y token,
     p_fields p !! "lat" = Some (FloatField x) /\
     p_fields p !! "lon" = Some (FloatField y) /\
     Py.float_truthy x = true /\ Py.float_truthy y = true /\
     lat_lon_to_token ext x y 10 = Some token /\
     p_tags p !! "s2_cell_id" = Some token).
Proof.
  intros Hp.
  destruct (import_data ext org bucket rows truncate) as [calls [count ign|e]] eqn:E;
    simpl in Hp.
  - rewrite (completed_run_points ext _ _ _ _ _ _ _ E) in Hp.
    apply list_elem_of_fmap in Hp as (tank & -> & Ht).
    rewrite (sort_desc_perm last_used_date) in Ht.
    apply accepted_in_order_elem in Ht as (i & row & Hrow & Hd).
    split; [by exists i, row, tank|].
    pose proof (decode_row_accepted_inv _ _ _ _ Hd) as [_ _ _ _ Hx Hy Htok _ _ _ _ _ _ _].
    destruct (tank_point_lat_lon_token tank) as (Hlat & Hlon & _ & Htag).
    by exists (lat tank), (lon tank), (s2_cell_id_token tank).
  - apply aborted_run_inv in E as ->.
    rewrite written_points_truncation in Hp. by apply elem_of_nil in Hp.
Qed.

Lemma written_points_are_consistent_witness :
  exists x y token,
    p_fields (tank_point "fuel_tanks" Sample.plain_tank) !! "lat" = Some (FloatField x) /\
    p_fields (tank_point "fuel_tanks" Sample.plain_tank) !! "lon" = Some (FloatField y) /\
    Py.float_truthy x = true /\ Py.float_truthy y = true /\
    lat_lon_to_token Sample.ext x y 10 = Some token /\
    p_tags (tank_point "fuel_tanks" Sample.plain_tank) !! "s2_cell_id" = Some token.
Proof.
  apply (written_points_are_consistent Sample.ext "org" "bucket"
           [Sample.header; Sample.plain] false).
  rewrite import_data_cases. simpl. apply list_elem_of_singleton. reflexivity.
Defined.

(** ** Trimmed texts *)

Module TrimFacts.
Import Py.

Lemma rstrip_last (s : string) (c : ascii) :
  last_char (rstrip s) = Some c -> is_space c = false.
Proof.
  induction s as [|a s IH]; simpl; [done|].
  destruct (rstrip s) as [|b r] eqn:E.
  - destruct (is_space a) eqn:Ea; simpl; [done|]. by intros [= <-].
  - intros H. apply IH. exact H.
Qed.

Lemma strip_first (s : string) (c : ascii) :
  first_char (strip s) = Some c -> is_space c = false.
Proof.
  unfold strip. destruct (PyFacts.lstrip_head s) as [->|(a & r & -> & Ha)]; [done|].
  destruct (PyFacts.rstrip_head a r Ha) as [r' ->]. simpl. by intros [= <-].
Qed.

Lemma strip_last (s : string) (c : ascii) :
  last_char (strip s) = Some c -> is_space c = false.
Proof. apply rstrip_last. Qed.

Lemma rstrip_fixed (s : string) (c : ascii) :
  last_char s = Some c -> is_space c = false -> rstrip s = s.
Proof.
  induction s as [|a s IH]; [done|]. intros Hl Hc.
  destruct s as [|b s].
  - injection Hl as ->. simpl. by rewrite Hc.
  - change (last_char (String b s) = Some c) in Hl.
    specialize (IH Hl Hc). remember (String b s) as t eqn:Et.
    simpl. rewrite IH. by subst t.
Qed.

Lemma lstrip_fixed (s : string) (c : ascii) :
  first_char s = Some c -> is_space c = false -> lstrip s = s.
Proof. destruct s as [|a s]; [done|]. intros [= ->] Hc. simpl. by rewrite Hc. Qed.

(** A text that neither starts nor ends with a blank is its own trimming. *)
Lemma strip_fixed (s : string) (a z : ascii) :
  first_char s = Some a -> is_space a = false ->
  last_char s = Some z -> is_space z = false ->
  strip s = s.
Proof.
  intros Ha Hsa Hz Hsz. unfold strip.
  rewrite (lstrip_fixed s a Ha Hsa). by apply rstrip_fixed with z.
Qed.

Lemma digit_not_space (c : ascii) (d : Z) : digit_of c = Some d -> is_space c = false.
Proof.
  unfold digit_of, is_space. destruct (_ && _)%bool eqn:E; [|done]. intros _.
  apply andb_true_iff in E as [H1 H2]. apply Nat.leb_le in H1, H2.
  apply orb_false_iff. split; apply andb_false_iff.
  - right. apply Nat.leb_gt. lia.
  - right. apply Nat.leb_gt. lia.
Qed.

Lemma first_char_list (s : string) (a : ascii) (l : list ascii) :
  list_ascii_of_string s = a :: l -> first_char s = Some a.
Proof. destruct s; simpl; [done|]. by intros [= -> _]. Qed.

Lemma last_char_list (s : string) (pre : list ascii) (z : ascii) :
  list_ascii_of_string s = pre ++ [z] -> last_char s = Some z.
Proof.
  revert pre. induction s as [|a s IH]; intros pre; simpl.
  - by destruct pre.
  - destruct pre as [|b pre]; simpl.
    + intros [= -> Hs]. by destruct s.
    + intros [= -> Hs]. destruct s as [|c s]; [by destruct pre|].
      by apply IH with pre.
Qed.

End TrimFacts.

(** X7. The seven texts of a constructed record (city, closure type,
    construction type, overfill and spill protection, status, substance
    stored) are trimmed: none starts or ends with a blank, and trimming one
    again changes nothing. *)
Theorem accepted_texts_are_trimmed
    (ext : Externals) (now_ : datetime) (row : RawRow) (tank : TankPoint) :
  decode_row ext now_ row = Ok (Accepted tank) ->
  Forall (fun s =>
            Py.strip s = s /\
            (forall c, first_char s = Some c -> Py.is_space c = false) /\
            (forall c, last_char s = Some c -> Py.is_space c = false))
         (texts tank).
Proof.
  intros H.
  pose proof (decode_row_accepted_inv _ _ _ _ H)
    as [_ _ _ _ _ _ _ H1 H2 H3 H4 H5 H6 H7].
  unfold texts. rewrite H1, H2, H3, H4, H5, H6, H7.
  repeat constructor;
    first [apply PyFacts.strip_idemp|apply TrimFacts.strip_first|apply TrimFacts.strip_last].
Qed.

Lemma accepted_texts_are_trimmed_witness :
  Forall (fun s =>
            Py.strip s = s /\
            (forall c, first_char s = Some c -> Py.is_space c = false) /\
            (forall c, last_char s = Some c -> Py.is_space c = false))
         (texts Sample.plain_tank).
Proof.
  apply (accepted_texts_are_trimmed Sample.ext (now Sample.ext 1) Sample.plain).
  reflexivity.
Defined.

(** ** Dates *)

Module StrptimeShape.
Import Strptime.

Lemma digit_in_digit (lo hi : Z) (c : ascii) (d : Z) :
  digit_in lo hi c = Some d -> Py.digit_of c = Some d.
Proof.
  unfold digit_in. destruct (Py.digit_of c); [|done].
  by destruct (_ && _); [intros [= <-]|].
Qed.

Lemma two_digits_shape (lo1 hi1 lo2 hi2 : Z) (l r : list ascii) (n : Z) :
  (n, r) ∈ two_digits lo1 hi1 lo2 hi2 l ->
  exists a b d, l = a :: b :: r /\ Py.digit_of a = Some d.
Proof.
  unfold two_digits. destruct l as [|a [|b l]]; try by intros ?%elem_of_nil.
  destruct (digit_in lo1 hi1 a) as [d|] eqn:Ea; [|by intros ?%elem_of_nil].
  destruct (digit_in lo2 hi2 b) eqn:Eb; [|by intros ?%elem_of_nil].
  intros [= -> ->]%list_elem_of_singleton.
  exists a, b, d. split; [done|]. by eapply digit_in_digit.
Qed.

Lemma one_digit_shape (lo hi : Z) (l r : list ascii) (n : Z) :
  (n, r) ∈ one_digit lo hi l -> exists a d, l = a :: r /\ Py.digit_of a = Some d.
Proof.
  unfold one_digit. destruct l as [|a l]; [by intros ?%elem_of_nil|].
  destruct (digit_in lo hi a) as [d|] eqn:Ea; [|by intros ?%elem_of_nil].
  intros [= -> ->]%list_elem_of_singleton.
  exists a, d. split; [done|]. by eapply digit_in_digit.
Qed.

Lemma blank_digit_shape (l r : list ascii) (n : Z) :
  (n, r) ∈ blank_digit l -> exists a b, l = a :: b :: r.
Proof.
  unfold blank_digit. destruct l as [|a [|b l]]; try by intros ?%elem_of_nil.
  destruct (Ascii.eqb a " "); [|by intros ?%elem_of_nil].
  destruct (digit_in 1 9 b); [|by intros ?%elem_of_nil].
  intros [= -> ->]%list_elem_of_singleton. by exists a, b.
Qed.

(** A month starts with a digit. *)
Lemma month_alts_shape (l r : list ascii) (m : Z) :
  (m, r) ∈ month_alts l ->
  exists a pre d, l = a :: pre ++ r /\ Py.digit_of a = Some d.
Proof.
  unfold month_alts. rewrite !elem_of_app. intros [H|[H|H]].
  - apply two_digits_shape in H as (a & b & d & -> & Hd). by exists a, [b], d.
  - apply two_digits_shape in H as (a & b & d & -> & Hd). by exists a, [b], d.
  - apply one_digit_shape in H as (a & d & -> & Hd). by exists a, [], d.
Qed.

Lemma day_alts_shape (l r : list ascii) (n : Z) :
  (n, r) ∈ day_alts l -> exists pre, l = pre ++ r.
Proof.
  unfold day_alts. rewrite !elem_of_app. intros [H|[H|[H|[H|H]]]].
  - apply two_digits_shape in H as (a & b & d & -> & Hd). by exists [a; b].
  - apply two_digits_shape in H as (a & b & d & -> & Hd). by exists [a; b].
  - apply two_digits_shape in H as (a & b & d & -> & Hd). by exists [a; b].
  - apply one_digit_shape in H as (a & d & -> & Hd). by exists [a].
  - apply blank_digit_shape in H as (a & b & ->). by exists [a; b].
Qed.

Lemma literal_shape (c : ascii) (l r : list ascii) : literal c l = Some r -> l = c :: r.
Proof.
  unfold literal. destruct l as [|a l]; [done|].
  destruct (Ascii.eqb_spec a c) as [->|]; [|done]. by intros [= ->].
Qed.

Lemma year_match_shape (l r : list ascii) (y : Z) :
  year_match l = Some (y, r) ->
  exists pre z d, l = pre ++ [z] ++ r /\ Py.digit_of z = Some d.
Proof.
  unfold year_match. destruct l as [|a [|b [|c [|z l]]]]; try done.
  destruct (Py.digit_of a); [|done]. destruct (Py.digit_of b); [|done].
  destruct (Py.digit_of c); [|done]. destruct (Py.digit_of z) as [d|] eqn:Ez; [|done].
  intros [= _ ->]. by exists [a; b; c], z, d.
Qed.

(** A text in the format starts with a digit, and what the regular
    expression has matched ends with a digit. *)
Lemma match_mdY_shape (l r : list ascii) (m d y : Z) :
  match_mdY l = Some (m, d, y, r) ->
  exists a mid z da dz,
    l = a :: mid ++ [z] ++ r /\ Py.digit_of a = Some da /\ Py.digit_of z = Some dz.
Proof.
  unfold match_mdY. intros E.
  apply StrptimeFacts.first_match_Some in E as ([m' r1] & Hm & E).
  destruct (literal "/" r1) as [r2|] eqn:E1; [|done]. simpl in E.
  apply StrptimeFacts.first_match_Some in E as ([d' r3] & Hd & E).
  destruct (literal "/" r3) as [r4|] eqn:E3; [|done]. simpl in E.
  destruct (year_match r4) as [[y' r5]|] eqn:Ey; [|done]. simpl in E.
  injection E as -> -> -> ->.
  apply month_alts_shape in Hm as (a & pre & da & -> & Ha).
  apply literal_shape in E1 as ->. apply day_alts_shape in Hd as (pre2 & ->).
  apply literal_shape in E3 as ->.
  apply year_match_shape in Ey as (pre3 & z & dz & -> & Hz).
  exists a, (pre ++ "/"%char :: pre2 ++ "/"%char :: pre3), z, da, dz.
  split; [|done]. f_equal. rewrite <- !app_assoc. simpl. f_equal. f_equal.
  by rewrite <- !app_assoc.
Qed.

(** [strptime] takes no blank around the date. *)
Lemma strptime_mdY_trimmed (s : string) (d : datetime) :
  strptime_mdY s = Some d -> Py.strip s = s.
Proof.
  unfold strptime_mdY.
  destruct (match_mdY (list_ascii_of_string s)) as [[[[m dd] y] r]|] eqn:E; [|done].
  destruct r; [|done]. intros _.
  apply match_mdY_shape in E as (a & mid & z & da & dz & El & Ha & Hz).
  apply TrimFacts.strip_fixed with a z.
  - by eapply TrimFacts.first_char_list.
  - by eapply TrimFacts.digit_not_space.
  - apply TrimFacts.last_char_list with (a :: mid). by rewrite El.
  - by eapply TrimFacts.digit_not_space.
Qed.

End StrptimeShape.

Lemma resolve_last_used_cases (now_ : datetime) (row : RawRow) (d : datetime) :
  resolve_last_used now_ row = Ok d ->
  d = now_ \/ d = START_OF_TIME_DATE \/ exists s, Strptime.strptime_mdY s = Some d.
Proof.
  unfold resolve_last_used. intros H.
  apply bind_Ok_inv in H as (last & _ & H).
  destruct (negb (Py.str_truthy last) || String.eqb last "").
  - apply bind_Ok_inv in H as (st & _ & H).
    destruct (Py.re_search "In Use" st); [left; congruence|].
    apply bind_Ok_inv in H as (inst & _ & H).
    destruct (Py.str_truthy inst).
    + apply value_or_raise_Ok in H. right. right. by exists inst.
    + right. left. congruence.
  - apply value_or_raise_Ok in H. right. right. by exists last.
Qed.

Lemma decode_row_date_fatal (ext : Externals) (now_ : datetime) (row : RawRow) :
  row !! UstToken.ID <> Some HEADER_ID ->
  unparsable_date row ->
  decode_row ext now_ row = Raise ValueError.
Proof.
  intros Hhd Hdate. unfold decode_row.
  destruct (getitem row UstToken.ID) as [id|e] eqn:Eid.
  - simpl. destruct (String.eqb_spec id HEADER_ID) as [->|_].
    + by apply getitem_Ok in Eid.
    + by rewrite (resolve_last_used_unparsable _ _ Hdate).
  - apply getitem_raise_short in Eid as [Hshort _].
    destruct Hdate as (last & Hlast & _). apply lookup_lt_Some in Hlast.
    unfold UstToken.ID, UstToken.LAST_USED_DATE in *. lia.
Qed.

(** X8. The last used date of a constructed record is the current time of
    the decoding, or the start of time 1970-01-01 00:00:00, or the midnight
    of a day of the calendar in the years 1 to 9999. *)
Theorem accepted_last_used_date_is_of_three_kinds
    (ext : Externals) (now_ : datetime) (row : RawRow) (tank : TankPoint) :
  decode_row ext now_ row = Ok (Accepted tank) ->
  last_used_date tank = now_ \/
  last_used_date tank = mk_datetime 1970 1 1 0 0 0 0 \/
  calendar_midnight (last_used_date tank).
Proof.
  intros H.
  pose proof (acc_last_used _ _ _ _ (decode_row_accepted_inv _ _ _ _ H)) as Hd.
  apply resolve_last_used_cases in Hd as [Hd|[Hd|[s Hs]]]; [by left|by right; left|].
  right. right. by apply StrptimeFacts.strptime_mdY_sound in Hs.
Qed.

Lemma accepted_last_used_date_is_of_three_kinds_witness :
  last_used_date Sample.plain_tank = now Sample.ext 1 \/
  last_used_date Sample.plain_tank = mk_datetime 1970 1 1 0 0 0 0 \/
  calendar_midnight (last_used_date Sample.plain_tank).
Proof.
  apply (accepted_last_used_date_is_of_three_kinds Sample.ext (now Sample.ext 1) Sample.plain).
  reflexivity.
Defined.

(** X9. The date fields are not trimmed. When the date the loop body reads
    (the last used date when that field is not empty; else, for a status
    without [In Use], the installation date when that field is not empty)
    starts or ends with a blank, the decoder raises a [ValueError] on the
    row, header row apart, although such blanks are dropped from the texts
    and the capacity. *)
Theorem date_with_blanks_around_is_fatal
    (ext : Externals) (now_ : datetime) (row : RawRow) (s : string) :
  row !! UstToken.ID <> Some "UST Site ID Number" ->
  (row !! UstToken.LAST_USED_DATE = Some s \/
   (row !! UstToken.LAST_USED_DATE = Some "" /\
    exists st, row !! UstToken.STATUS = Some st /\ Py.re_search "In Use" st = false /\
               row !! UstToken.INSTALLATION_DATE = Some s)) ->
  s <> "" ->
  Py.strip s <> s ->
  decode_row ext now_ row = Raise ValueError.
Proof.
  intros Hhd Hread Hne Hblank.
  assert (Hp : Strptime.strptime_mdY s = None).
  { destruct (Strptime.strptime_mdY s) as [d|] eqn:E; [|done].
    by apply StrptimeShape.strptime_mdY_trimmed in E. }
  apply decode_row_date_fatal; [done|].
  destruct Hread as [Hlast|(Hlast & st & Hst & Huse & Hinst)].
  - exists s. split; [done|]. by left.
  - exists "". split; [done|]. right. split; [done|]. by exists st, s.
Qed.

Lemma date_with_blanks_around_is_fatal_witness :
  decode_row Sample.ext (now Sample.ext 1)
    (Sample.row "Avon" "06101" "Permanently Closed" "550" "Heating Oil"
                " 05/10/2021" "" "41.75" "-72.5") = Raise ValueError.
Proof.
  apply (date_with_blanks_around_is_fatal Sample.ext (now Sample.ext 1) _ " 05/10/2021").
  - discriminate.
  - left. reflexivity.
  - discriminate.
  - discriminate.
Defined.

(** ** Capacity, clock and location *)

(** X10. Blanks around the capacity do not matter: the capacity field is
    trimmed before it is handed to [int], so two rows that differ only in
    the blanks around the capacity (the trimmed texts are the same) are
    decoded the same. *)
Theorem blanks_around_capacity_do_not_matter
    (ext : Externals) (now_ : datetime) (row : RawRow) (c c' : string) :
  row !! UstToken.ESTIMATED_TOTAL_CAPACITY = Some c ->
  Py.strip c' = Py.strip c ->
  decode_row ext now_ (<[UstToken.ESTIMATED_TOTAL_CAPACITY := c']> row)
  = decode_row ext now_ row.
Proof.
  intros Hc Hs.
  assert (Hlen : (UstToken.ESTIMATED_TOTAL_CAPACITY < length row)%nat)
    by (by apply lookup_lt_Some in Hc).
  assert (Hd : resolve_last_used now_ (<[UstToken.ESTIMATED_TOTAL_CAPACITY := c']> row)
               = resolve_last_used now_ row).
  { unfold resolve_last_used. by rewrite !getitem_insert_ne by done. }
  assert (Hl : resolve_location ext (<[UstToken.ESTIMATED_TOTAL_CAPACITY := c']> row)
               = resolve_location ext row).
  { unfold resolve_location, zip_branch. by rewrite !getitem_insert_ne by done. }
  unfold decode_row. rewrite Hd, Hl.
  rewrite (getitem_insert_eq _ _ _ Hlen), !getitem_insert_ne by done.
  apply getitem_Ok in Hc. rewrite Hc.
  destruct (getitem row UstToken.ID) as [id|]; simpl; [|done].
  destruct (String.eqb id HEADER_ID); [done|].
  destruct (resolve_last_used now_ row); simpl; [|done].
  destruct (getitem row UstToken.CITY); simpl; [|done].
  destruct (getitem row UstToken.CLOSURE_TYPE); simpl; [|done].
  destruct (getitem row UstToken.CONSTRUCTION_TYPE_PIPING); simpl; [|done].
  by rewrite Hs.
Qed.

Lemma blanks_around_capacity_do_not_matter_witness :
  decode_row Sample.ext (now Sample.ext 1)
    (<[UstToken.ESTIMATED_TOTAL_CAPACITY := "  1000 "]> Sample.plain)
  = decode_row Sample.ext (now Sample.ext 1) Sample.plain.
Proof.
  apply (blanks_around_capacity_do_not_matter Sample.ext (now Sample.ext 1)
           Sample.plain "1000" "  1000 "); reflexivity.
Defined.

(** X11. The current time reaches a row only through the heuristic for
    tanks in use: when the last used field is not empty, or the status does
    not contain [In Use], the row is decoded the same at any time. *)
Theorem clock_matters_only_for_tanks_in_use
    (ext : Externals) (t1 t2 : datetime) (row : RawRow) (last : string) :
  row !! UstToken.LAST_USED_DATE = Some last ->
  last <> "" \/
  (exists st, row !! UstToken.STATUS = Some st /\ Py.re_search "In Use" st = false) ->
  decode_row ext t1 row = decode_row ext t2 row.
Proof.
  intros Hlast Hcase.
  assert (H : resolve_last_used t1 row = resolve_last_used t2 row).
  { unfold resolve_last_used. apply getitem_Ok in Hlast. rewrite Hlast. simpl.
    destruct Hcase as [Hne|(st & Hst & Huse)].
    - apply PyFacts.str_truthy_true in Hne. rewrite Hne. simpl.
      by destruct (String.eqb_spec last "") as [->|].
    - destruct (negb (Py.str_truthy last) || String.eqb last ""); [|done].
      apply getitem_Ok in Hst. rewrite Hst. simpl. by rewrite Huse. }
  unfold decode_row. by rewrite H.
Qed.

Lemma clock_matters_only_for_tanks_in_use_witness :
  decode_row Sample.ext (mk_datetime 2022 11 5 10 30 0 250000) Sample.plain
  = decode_row Sample.ext (mk_datetime 2030 1 1 0 0 0 0) Sample.plain.
Proof.
  apply (clock_matters_only_for_tanks_in_use Sample.ext _ _ Sample.plain "05/10/2021").
  - reflexivity.
  - left. discriminate.
Defined.

(** X12. The postal code branch gives a record. On a row of 27 columns, not
    the header row, whose date and capacity parse and whose latitude field
    is empty (or whose longitude field is), a non-empty postal code that the
    database resolves to two floats that are not zero gives, once the cell
    library has answered, a record with exactly these coordinates, the token
    of the library, and the date and capacity parsed. *)
Theorem postal_code_fallback_is_accepted
    (ext : Externals) (now_ : datetime) (row : RawRow)
    (d : datetime) (z : Z) (la zip token : string)
    (sr_data : SimpleZipcode.t) (x y : float) :
  length row = 27%nat ->
  row !! UstToken.ID <> Some "UST Site ID Number" ->
  resolve_last_used now_ row = Ok d ->
  Py.int (Py.strip (column row UstToken.ESTIMATED_TOTAL_CAPACITY)) = Some z ->
  row !! UstToken.LATITUDE = Some la ->
  la = "" \/ row !! UstToken.LONGITUDE = Some "" ->
  row !! UstToken.ZIP = Some zip -> zip <> "" ->
  by_zipcode ext zip = Some sr_data ->
  SimpleZipcode.lat sr_data = Some x -> SimpleZipcode.lng sr_data = Some y ->
  Py.float_truthy x = true -> Py.float_truthy y = true ->
  lat_lon_to_token ext x y 10 = Some token ->
  exists tank,
    decode_row ext now_ row = Ok (Accepted tank) /\
    lat tank = x /\ lon tank = y /\ s2_cell_id_token tank = token /\
    last_used_date tank = d /\ estimated_total_capacity tank = z.
Proof.
  intros Hlen Hhd Hlast Hcap Hla Hdirect Hzip Hne Hsr Hx Hy Tx Ty Htok.
  rewrite (decode_row_well_formed ext now_ row d z (Some x, Some y)); try done.
  - rewrite Tx, Ty. simpl. change S2_LEVEL with 10. rewrite Htok. simpl. by eexists.
  - rewrite (resolve_location_fallback ext row la Hla Hdirect). unfold zip_branch.
    apply getitem_Ok in Hzip. rewrite Hzip. simpl.
    apply PyFacts.str_truthy_true in Hne. by rewrite Hne, Hsr, Hx, Hy.
Qed.

Lemma postal_code_fallback_is_accepted_witness :
  exists tank,
    decode_row Sample.ext (now Sample.ext 1) Sample.by_postal_code = Ok (Accepted tank) /\
    lat tank = 41.5%float /\ lon tank = (-72.25)%float /\ s2_cell_id_token tank = "89e7" /\
    last_used_date tank = mk_datetime 1990 1 2 0 0 0 0 /\
    estimated_total_capacity tank = 550.
Proof.
  apply (postal_code_fallback_is_accepted Sample.ext (now Sample.ext 1)
           Sample.by_postal_code (mk_datetime 1990 1 2 0 0 0 0) 550 "" "06101" "89e7"
           (SimpleZipcode.mk (Some 41.5%float) (Some (-72.25)%float)));
    try reflexivity; try discriminate.
  by left.
Defined.

Lemma direct_coordinates_are_accepted_witness :
  exists tank,
    decode_row Sample.ext (now Sample.ext 1) Sample.plain = Ok (Accepted tank) /\
    lat tank = 41.75%float /\ lon tank = (-72.5)%float.
Proof.
  apply (direct_coordinates_are_accepted Sample.ext (now Sample.ext 1) Sample.plain
           (mk_datetime 2021 5 10 0 0 0 0) 1000 "41.75" "-72.5" "89e7");
    try reflexivity; discriminate.
Defined.

(** ** The ordering stage, once more *)

(** X14. Records that already come in descending order of their last used
    dates are left as they are by the ordering stage. *)
Theorem descending_records_are_left_as_they_are (l : list TankPoint) :
  Sorted (fun a b => dt_leb (last_used_date b) (last_used_date a) = true) l ->
  sort_desc last_used_date l = l.
Proof.
  intros Hs. symmetry. apply (sorted_with_key_eq last_used_date).
  - apply Sorted_StronglySorted; [apply _|exact Hs].
  - apply sort_desc_strongly_sorted.
  - intros d. symmetry. apply sort_desc_with_key.
Qed.

Lemma descending_records_are_left_as_they_are_witness :
  sort_desc last_used_date
    [Sample.plain_tank; Sample.tank_at "old" (mk_datetime 1990 1 2 0 0 0 0)]
  = [Sample.plain_tank; Sample.tank_at "old" (mk_datetime 1990 1 2 0 0 0 0)].
Proof.
  apply (descending_records_are_left_as_they_are
           [Sample.plain_tank; Sample.tank_at "old" (mk_datetime 1990 1 2 0 0 0 0)]).
  repeat constructor.
Defined.

Lemma stable_sort_unique_witness :
  [Sample.plain_tank; Sample.tank_at "old" (mk_datetime 1990 1 2 0 0 0 0)]
  = sort_desc last_used_date
      [Sample.tank_at "old" (mk_datetime 1990 1 2 0 0 0 0); Sample.plain_tank].
Proof.
  apply (stable_sort_unique last_used_date
           [Sample.tank_at "old" (mk_datetime 1990 1 2 0 0 0 0); Sample.plain_tank]
           [Sample.plain_tank; Sample.tank_at "old" (mk_datetime 1990 1 2 0 0 0 0)]).
  - repeat constructor.
  - intros d. rewrite !with_key_cons.
    destruct (decide (last_used_date Sample.plain_tank = d)) as [H1|H1],
      (decide (last_used_date (Sample.tank_at "old" (mk_datetime 1990 1 2 0 0 0 0)) = d))
        as [H2|H2]; try done.
    rewrite <- H2 in H1. discriminate H1.
Defined.

(** ** Columns *)

Lemma decode_row_Ok_reads_latitude (ext : Externals) (now_ : datetime) (row : RawRow)
    (d : decoded) :
  decode_row ext now_ row = Ok d ->
  d = Skipped \/ is_Some (row !! UstToken.LATITUDE).
Proof.
  intros H. unfold decode_row in H.
  apply bind_Ok_inv in H as (id & Hid & H).
  destruct (String.eqb id HEADER_ID); [left; congruence|].
  invert_binds H. right.
  match goal with
  | G : resolve_location ext row = Ok _ |- _ =>
      unfold resolve_location in G; apply bind_Ok_inv in G as (la & Hla & _)
  end.
  apply getitem_Ok in Hla. by eexists.
Qed.

(** X16. A row of fewer than 20 fields that is not the header row is never
    accepted nor ignored: the decoder raises on it, and what it raises is an
    [IndexError] when the row has at most 10 fields. An empty row, which the
    csv reader gives for an empty line, is such a row. *)
Theorem short_rows_always_raise (ext : Externals) (now_ : datetime) (row : RawRow) :
  row !! UstToken.ID <> Some "UST Site ID Number" ->
  (length row < 20)%nat ->
  exists e,
    decode_row ext now_ row = Raise e /\
    ((length row <= 10)%nat -> e = IndexError).
Proof.
  intros Hhd Hlen. destruct (decode_row ext now_ row) as [d|e] eqn:E.
  - exfalso. destruct (decode_row_Ok_reads_latitude ext now_ row d E) as [->|[la Hla]].
    + by apply decode_row_skipped_inv in E.
    + apply lookup_lt_Some in Hla. unfold UstToken.LATITUDE in Hla. lia.
  - exists e. split; [done|]. intros Hshort. unfold decode_row in E.
    destruct (getitem row UstToken.ID) as [id|e0] eqn:Eid; simpl in E.
    + destruct (String.eqb id HEADER_ID); [done|].
      unfold resolve_last_used in E.
      destruct (getitem row UstToken.LAST_USED_DATE) as [last|e1] eqn:El; simpl in E.
      * apply getitem_Ok, lookup_lt_Some in El. unfold UstToken.LAST_USED_DATE in El. lia.
      * apply getitem_raise_short in El as [_ ->]. congruence.
    + apply getitem_raise_short in Eid as [_ ->]. congruence.
Qed.

Lemma short_rows_always_raise_witness :
  exists e, decode_row Sample.ext (now Sample.ext 1) [] = Raise e /\
            ((length ([] : RawRow) <= 10)%nat -> e = IndexError).
Proof.
  apply (short_rows_always_raise Sample.ext (now Sample.ext 1) []).
  - discriminate.
  - simpl. lia.
Defined.

(** X17. The installation date is read only as a substitute: when the last
    used field is not empty, or the status contains [In Use], whatever
    stands in the installation date field, well formed or not, leaves the
    decoding of the row as it is. *)
Theorem installation_date_is_only_a_substitute
    (ext : Externals) (now_ : datetime) (row : RawRow) (last inst : string) :
  row !! UstToken.LAST_USED_DATE = Some last ->
  last <> "" \/
  (exists st, row !! UstToken.STATUS = Some st /\ Py.re_search "In Use" st = true) ->
  decode_row ext now_ (<[UstToken.INSTALLATION_DATE := inst]> row)
  = decode_row ext now_ row.
Proof.
  intros Hlast Hcase.
  assert (Hd : resolve_last_used now_ (<[UstToken.INSTALLATION_DATE := inst]> row)
               = resolve_last_used now_ row).
  { unfold resolve_last_used.
    rewrite (getitem_insert_ne row _ UstToken.LAST_USED_DATE),
      (getitem_insert_ne row _ UstToken.STATUS) by done.
    apply getitem_Ok in Hlast. rewrite Hlast. simpl.
    destruct Hcase as [Hne|(st & Hst & Huse)].
    - apply PyFacts.str_truthy_true in Hne. rewrite Hne. simpl.
      by destruct (String.eqb_spec last "") as [->|].
    - destruct (negb (Py.str_truthy last) || String.eqb last ""); [|done].
      apply getitem_Ok in Hst. rewrite Hst. simpl. by rewrite Huse. }
  unfold decode_row. rewrite Hd. unfold resolve_location, zip_branch.
  by rewrite !getitem_insert_ne by done.
Qed.

Lemma installation_date_is_only_a_substitute_witness :
  decode_row Sample.ext (now Sample.ext 1)
    (<[UstToken.INSTALLATION_DATE := "no date"]> Sample.plain)
  = decode_row Sample.ext (now Sample.ext 1) Sample.plain.
Proof.
  apply (installation_date_is_only_a_substitute Sample.ext (now Sample.ext 1)
           Sample.plain "05/10/2021" "no date").
  - reflexivity.
  - left. discriminate.
Defined.

(** A column that is not among [read_columns] can hold anything. *)
Lemma unread_columns_do_not_matter
    (ext : Externals) (now_ : datetime) (row : RawRow) (i : nat) (s : string) :
  i ∉ read_columns ->
  decode_row ext now_ (<[i := s]> row) = decode_row ext now_ row.
Proof.
  intros Hi. unfold read_columns in Hi.
  repeat (apply not_elem_of_cons in Hi as [? Hi]).
  unfold decode_row, resolve_last_used, resolve_location, zip_branch.
  by rewrite !getitem_insert_ne by done.
Qed.

Ltac changes_decoding row s :=
  exists Sample.ext, (now Sample.ext 1), row, s; vm_compute; discriminate.

(** X18. The decoder reads exactly fourteen columns: the ID, the city, the
    postal code, the status, the capacity, the substance, the last used
    date, the closure type, the construction type of the piping, the
    installation date, the spill and overfill protection, the latitude and
    the longitude of the tank. Any other column (the site name and address,
    the tank number, the compartment, the construction type of the tank,
    both details columns, the collection methods, the reference point types,
    the latitude and longitude of the site) can hold anything, the row is
    decoded the same; and each of the fourteen is read: there is a row whose
    decoding changes when that column alone is changed. *)
Theorem exactly_the_read_columns_matter (i : nat) :
  (i ∉ read_columns ->
   forall ext now_ row s,
     decode_row ext now_ (<[i := s]> row) = decode_row ext now_ row) /\
  (i ∈ read_columns ->
   exists ext now_ row s,
     decode_row ext now_ (<[i := s]> row) <> decode_row ext now_ row).
Proof.
  split.
  - intros Hi ext now_ row s. by apply unread_columns_do_not_matter.
  - unfold read_columns. intros Hi.
    repeat (apply elem_of_cons in Hi as [->|Hi]).
    + changes_decoding Sample.plain "UST Site ID Number".
    + changes_decoding Sample.plain "Avon".
    + changes_decoding Sample.by_postal_code "".
    + changes_decoding Sample.plain "Currently In Use".
    + changes_decoding Sample.plain "7".
    + changes_decoding Sample.plain "Diesel".
    + changes_decoding Sample.plain "05/11/2021".
    + changes_decoding Sample.plain "Abandoned in Place".
    + changes_decoding Sample.plain "Copper".
    + changes_decoding Sample.by_postal_code "01/03/1990".
    + changes_decoding Sample.plain "None".
    + changes_decoding Sample.plain "None".
    + changes_decoding Sample.plain "0.0".
    + changes_decoding Sample.plain "0.0".
    + by apply elem_of_nil in Hi.
Qed.

(** [int] skips the blank but not the separator FS (code 28), which only
    [str.strip] drops: the trimming of line 179 is what lets such a capacity
    through. *)
Example int_skips_c_whitespace_only :
  Py.int " 12 " = Some 12 /\
  Py.int (String (ascii_of_nat 28) "12") = None /\
  Py.int (Py.strip (String (ascii_of_nat 28) "12")) = Some 12.
Proof. repeat split. Qed.
